(** * Validation models of the course catalogue: [models/course.py] and
      [models/department.py]

    The two source files declare pydantic (v2) models.  A model class is a
    list of typed fields; constructing an instance from a payload validates
    every declared field in declaration order, collects the errors of all
    of them, and either raises one [ValidationError] carrying every line
    error or returns the instance together with [model_fields_set], the
    names of the fields the payload supplied.

    The embedding follows that reading of the declarations:
    - a payload is a Python [dict] with string keys, modelled as a
      [gmap string pyval];
    - a field declared with [Field(...)] is required, one declared with
      [Field(None)] defaults to [None], one declared with
      [Field(default_factory=f)] calls [f] when the key is absent;
    - [uuid4] and [datetime.now] are effects on an explicit [world];
    - a string is the sequence of its bytes; the character classes of the
      course-number pattern are modelled on ASCII text, where [\d] is
      [0-9].  The engine's [\d] also holds the decimal digits of other
      scripts, so what is said of the strings the pattern accepts is said
      of ASCII strings ([is_ascii]); floating-point payload values are
      outside the model. *)

From Stdlib Require Import Ascii String NArith ZArith.
From stdpp Require Import base option list strings gmap fin_maps.

Open Scope Z_scope.

(** ** Python values reaching a validator *)

Definition UUID := N.

(** An aware UTC instant, in microseconds since the epoch. *)
Definition datetime := Z.

#[warnings="-register-all"]
Inductive pyval : Type :=
  | VNone
  | VBool (b : bool)
  | VInt (z : Z)
  | VStr (s : string)
  | VUUID (u : UUID)
  | VDatetime (t : datetime)
  | VList (l : list pyval)
  | VDict (d : gmap string pyval).

(** ** Line errors of a [ValidationError] *)

Inductive loc_item : Type :=
  | Key (k : string)
  | Idx (i : nat).

(** The error types pydantic reports for the field types used here. *)
Inductive error_type : Type :=
  | missing
  | string_type
  | string_pattern_mismatch
  | int_type
  | int_parsing
  | list_type
  | model_type
  | value_error
  | uuid_type
  | uuid_parsing
  | datetime_type
  | datetime_parsing.

Record line_error : Type := LineError {
  loc : list loc_item;
  type : error_type;
}.

Inductive result (A : Type) : Type :=
  | Ok (a : A)
  | Err (es : list line_error).
Arguments Ok {A} a.
Arguments Err {A} es.

Definition fmap_result {A B} (f : A → B) (r : result A) : result B :=
  match r with
  | Ok a => Ok (f a)
  | Err es => Err es
  end.

(** Errors of both sides are kept: a model reports the line errors of
    every field, in declaration order. *)
Definition ap {A B} (rf : result (A → B)) (ra : result A) : result B :=
  match rf, ra with
  | Ok f, Ok a => Ok (f a)
  | Ok _, Err es => Err es
  | Err es, Ok _ => Err es
  | Err es1, Err es2 => Err (es1 ++ es2)
  end.

Infix "<&>" := ap (at level 61, left associativity).

Definition errors {A} (r : result A) : list line_error :=
  match r with
  | Ok _ => []
  | Err es => es
  end.

Definition is_ok {A} (r : result A) : bool :=
  match r with
  | Ok _ => true
  | Err _ => false
  end.

Definition fail {A} (t : error_type) : result A := Err [LineError [] t].

Definition under (i : loc_item) (e : line_error) : line_error :=
  LineError (i :: loc e) (type e).

(** A nested validator reports its errors below the location of the
    field or list element it was called for. *)
Definition at_loc {A} (i : loc_item) (r : result A) : result A :=
  match r with
  | Ok a => Ok a
  | Err es => Err (under i <$> es)
  end.

Definition sequence {A} (rs : list (result A)) : result (list A) :=
  foldr (λ r acc, Ok cons <&> r <&> acc) (Ok []) rs.

(** The spec's taxonomy: [MissingFieldError] is pydantic's [missing];
    every other line error says a supplied value fails the format or type
    constraint of its field ([FormatError]). *)
Definition is_MissingFieldError (e : line_error) : bool :=
  match type e with
  | missing => true
  | _ => false
  end.

Definition is_FormatError (e : line_error) : bool :=
  negb (is_MissingFieldError e).

(** The line errors reported at or below a top-level field. *)
Definition on_field (f : string) (e : line_error) : bool :=
  match loc e with
  | Key k :: _ => bool_decide (k = f)
  | _ => false
  end.

Definition field_errors {A} (f : string) (r : result A) : list line_error :=
  filter (λ e, on_field f e = true) (errors r).

(** ** Patterns of [StringConstraints]

    The pattern engine searches the string; with [^] and [$] around the
    whole pattern a match consumes the string from its first to its last
    character.  A pattern here is a sequence of counted character classes,
    run from the left on the remaining input. *)

Definition in_range (lo hi : N) (c : ascii) : bool :=
  let n := N_of_ascii c in (lo <=? n)%N && (n <=? hi)%N.

(** [[A-Z]] *)
Definition upper (c : ascii) : bool := in_range 65 90 c.
(** [[a-z]] *)
Definition lower (c : ascii) : bool := in_range 97 122 c.
(** [\d], on ASCII text *)
Definition digit (c : ascii) : bool := in_range 48 57 c.

(** [cl{n}]: exactly [n] characters of the class, returning the rest. *)
Fixpoint exactly (n : nat) (cl : ascii → bool) (s : string) : option string :=
  match n with
  | O => Some s
  | S n' =>
      match s with
      | String c s' => if cl c then exactly n' cl s' else None
      | EmptyString => None
      end
  end.

(** [cl*], greedy. *)
Fixpoint many (cl : ascii → bool) (s : string) : string :=
  match s with
  | String c s' => if cl c then many cl s' else s
  | EmptyString => s
  end.

(** [cl+], greedy. *)
Definition some (cl : ascii → bool) (s : string) : option string :=
  match s with
  | String c s' => if cl c then Some (many cl s') else None
  | EmptyString => None
  end.

(** [$] *)
Definition at_end (rest : option string) : bool :=
  match rest with
  | Some EmptyString => true
  | _ => false
  end.

(** [course.py], line 12: [^[A-Z]{4}\d{4}[A-Z]$], on ASCII text. *)
Definition CourseNumberType_pattern (s : string) : bool :=
  at_end (r1 ← exactly 4 upper s; r2 ← exactly 4 digit r1; exactly 1 upper r2).

(** The language of that pattern, as the data model words it: four
    uppercase letters, four digits, one uppercase letter. *)
Definition course_number_shape (s : string) : Prop :=
  ∃ dept num : list ascii, ∃ suffix : ascii,
    s = string_of_list_ascii (dept ++ num ++ [suffix]) ∧
    length dept = 4%nat ∧ Forall (λ c, upper c = true) dept ∧
    length num = 4%nat ∧ Forall (λ c, digit c = true) num ∧
    upper suffix = true.

(** ** What the models import

    [UNIType] comes from [models/person.py], which is not among the
    sources, and [EmailStr], [int], [UUID] and [datetime] coerce strings
    with library parsers.  The models are stated over these, so that every
    general statement below holds whatever they accept. *)
Class Deps : Type := {
  (** the pattern of [person.UNIType], a constrained [str] *)
  UNIType_pattern : string → bool;
  (** [EmailStr]: the normalised address, or no address *)
  EmailStr_parse : string → option string;
  (** lax coercion of a [str] to an [int] *)
  str_as_int : string → option Z;
  (** lax coercion of a [str] to a [UUID] *)
  str_as_uuid : string → option UUID;
  (** lax coercion of a [str] to a [datetime] *)
  str_as_datetime : string → option datetime;
  (** lax coercion of an [int] (a unix timestamp) to a [datetime] *)
  int_as_datetime : Z → option datetime;
}.

(** ** Field types *)

Section field_types.
Context {D : Deps}.

(** [str] *)
Definition str_validate (v : pyval) : result string :=
  match v with
  | VStr s => Ok s
  | _ => fail string_type
  end.

(** [Annotated[str, StringConstraints(pattern=p)]] *)
Definition constrained_str (pattern : string → bool) (v : pyval)
  : result string :=
  match v with
  | VStr s => if pattern s then Ok s else fail string_pattern_mismatch
  | _ => fail string_type
  end.

Definition CourseNumberType : pyval → result string :=
  constrained_str CourseNumberType_pattern.

Definition UNIType : pyval → result string :=
  constrained_str UNIType_pattern.

(** [int], lax mode: a [bool] is an [int], a [str] is parsed. *)
Definition int_validate (v : pyval) : result Z :=
  match v with
  | VInt z => Ok z
  | VBool b => Ok (if b then 1 else 0)
  | VStr s =>
      match str_as_int s with
      | Some z => Ok z
      | None => fail int_parsing
      end
  | _ => fail int_type
  end.

(** [EmailStr] *)
Definition EmailStr (v : pyval) : result string :=
  match v with
  | VStr s =>
      match EmailStr_parse s with
      | Some e => Ok e
      | None => fail value_error
      end
  | _ => fail string_type
  end.

(** [UUID] *)
Definition UUID_validate (v : pyval) : result UUID :=
  match v with
  | VUUID u => Ok u
  | VStr s =>
      match str_as_uuid s with
      | Some u => Ok u
      | None => fail uuid_parsing
      end
  | _ => fail uuid_type
  end.

(** [datetime] *)
Definition datetime_validate (v : pyval) : result datetime :=
  match v with
  | VDatetime t => Ok t
  | VStr s =>
      match str_as_datetime s with
      | Some t => Ok t
      | None => fail datetime_parsing
      end
  | VInt z =>
      match int_as_datetime z with
      | Some t => Ok t
      | None => fail datetime_parsing
      end
  | _ => fail datetime_type
  end.

(** [Optional[T]]: [None] is a value of the field. *)
Definition Optional {A} (T : pyval → result A) (v : pyval)
  : result (option A) :=
  match v with
  | VNone => Ok None
  | _ => fmap_result Some (T v)
  end.

(** [List[T]]: every element is validated, element [i] reports below
    index [i]. *)
Definition List_of {A} (T : pyval → result A) (v : pyval) : result (list A) :=
  match v with
  | VList l => sequence (imap (λ i x, at_loc (Idx i) (T x)) l)
  | _ => fail list_type
  end.

(** A model class used as a field type takes a [dict]. *)
Definition nested {A} (fields : gmap string pyval → result A) (v : pyval)
  : result A :=
  match v with
  | VDict d => fields d
  | _ => fail model_type
  end.
End field_types.

(** ** Fields of a model *)

(** [Field(...)]: the key must be there. *)
Definition required {A} (name : string) (T : pyval → result A)
    (d : gmap string pyval) : result A :=
  match d !! name with
  | Some v => at_loc (Key name) (T v)
  | None => Err [LineError [Key name] missing]
  end.

(** [Field(dflt)]: the default stands in for an absent key and is not
    validated. *)
Definition with_default {A} (name : string) (T : pyval → result A) (dflt : A)
    (d : gmap string pyval) : result A :=
  match d !! name with
  | Some v => at_loc (Key name) (T v)
  | None => Ok dflt
  end.

(** The generator and the clock behind [uuid4()] and
    [datetime.now(timezone.utc)]: the values they will return, and how many
    were taken. *)
Record world : Type := World {
  entropy : nat → UUID;
  drawn : nat;
  clock : nat → datetime;
  ticks : nat;
}.

Definition uuid4 (w : world) : UUID * world :=
  (entropy w (drawn w),
   {| entropy := entropy w; drawn := S (drawn w);
      clock := clock w; ticks := ticks w |}).

Definition now_utc (w : world) : datetime * world :=
  (clock w (ticks w),
   {| entropy := entropy w; drawn := drawn w;
      clock := clock w; ticks := S (ticks w) |}).

(** [Field(default_factory=f)]: [f] runs when, and only when, the key is
    absent. *)
Definition with_default_factory {A} (name : string) (T : pyval → result A)
    (factory : world → A * world) (d : gmap string pyval) (w : world)
    : result A * world :=
  match d !! name with
  | Some v => (at_loc (Key name) (T v), w)
  | None => let '(a, w') := factory w in (Ok a, w')
  end.

(** A validated instance: the field values and [model_fields_set], the
    declared fields that the payload supplied. *)
Record Model (A : Type) : Type := MkModel {
  data : A;
  model_fields_set : gset string;
}.
Arguments MkModel {A} data model_fields_set.
Arguments data {A} m.
Arguments model_fields_set {A} m.

Definition fields_set (declared : list string) (d : gmap string pyval)
    : gset string :=
  list_to_set (filter (λ k, is_Some (d !! k)) declared).

(** Keys that are not declared are not looked at ([extra] is left at its
    default, ['ignore']). *)
Definition model_validate {A} (declared : list string)
    (fields : gmap string pyval → result A) (d : gmap string pyval)
    : result (Model A) :=
  fmap_result (λ a, MkModel a (fields_set declared d)) (fields d).

Open Scope string_scope.

(** ** [models/course.py] *)

Module CourseBase.
Record t : Type := mk {
  course_number : string;
  name : string;
  professor_uni : string;
  credits : Z;
  strength : Z;
}.

Definition declared : list string :=
  ["course_number"; "name"; "professor_uni"; "credits"; "strength"].

Section validation.
Context {D : Deps}.

Definition fields (d : gmap string pyval) : result t :=
  Ok mk
    <&> required "course_number" CourseNumberType d
    <&> required "name" str_validate d
    <&> required "professor_uni" UNIType d
    <&> required "credits" int_validate d
    <&> required "strength" int_validate d.

Definition validate : gmap string pyval → result (Model t) :=
  model_validate declared fields.
End validation.

Definition model_dump (c : t) : gmap string pyval :=
  <["course_number" := VStr (course_number c)]>
  (<["name" := VStr (name c)]>
  (<["professor_uni" := VStr (professor_uni c)]>
  (<["credits" := VInt (credits c)]>
  (<["strength" := VInt (strength c)]> ∅)))).
End CourseBase.

(** [class CourseCreate(CourseBase)] declares no field of its own. *)
Module CourseCreate.
Definition t : Type := CourseBase.t.
Definition declared : list string := CourseBase.declared.

Section validation.
Context {D : Deps}.

Definition validate : gmap string pyval → result (Model t) :=
  model_validate declared CourseBase.fields.
End validation.
End CourseCreate.

Module CourseUpdate.
Record t : Type := mk {
  course_number : option string;
  name : option string;
  credits : option Z;
  professor_uni : option string;
  strength : option Z;
}.

Definition declared : list string :=
  ["course_number"; "name"; "credits"; "professor_uni"; "strength"].

Section validation.
Context {D : Deps}.

Definition fields (d : gmap string pyval) : result t :=
  Ok mk
    <&> with_default "course_number" (Optional UNIType) None d
    <&> with_default "name" (Optional str_validate) None d
    <&> with_default "credits" (Optional int_validate) None d
    <&> required "professor_uni" (Optional UNIType) d
    <&> with_default "strength" (Optional int_validate) None d.

Definition validate : gmap string pyval → result (Model t) :=
  model_validate declared fields.
End validation.
End CourseUpdate.

(** [class CourseRead(CourseBase)]: the base fields come first. *)
Module CourseRead.
Record t : Type := mk {
  base : CourseBase.t;
  id : UUID;
  created_at : datetime;
  updated_at : datetime;
}.

Definition declared : list string :=
  CourseBase.declared ++ ["id"; "created_at"; "updated_at"].

Section validation.
Context {D : Deps}.

Definition validate (d : gmap string pyval) (w : world)
  : result (Model t) * world :=
  let rb := CourseBase.fields d in
  let '(rid, w1) := with_default_factory "id" UUID_validate uuid4 d w in
  let '(rc, w2) :=
    with_default_factory "created_at" datetime_validate now_utc d w1 in
  let '(ru, w3) :=
    with_default_factory "updated_at" datetime_validate now_utc d w2 in
  (fmap_result (λ a, MkModel a (fields_set declared d))
     (Ok mk <&> rb <&> rid <&> rc <&> ru),
   w3).
End validation.

Definition model_dump (r : t) : gmap string pyval :=
  <["id" := VUUID (id r)]>
  (<["created_at" := VDatetime (created_at r)]>
  (<["updated_at" := VDatetime (updated_at r)]>
  (CourseBase.model_dump (base r)))).
End CourseRead.

(** ** [models/department.py] *)

Module DepartmentBase.
Record t : Type := mk {
  department_code : string;
  name : string;
  head_of_department : string;
  courses_list : list CourseBase.t;
  email : string;
}.

Definition declared : list string :=
  ["department_code"; "name"; "head_of_department"; "courses_list";
   "email"].

Section validation.
Context {D : Deps}.

Definition fields (d : gmap string pyval) : result t :=
  Ok mk
    <&> required "department_code" str_validate d
    <&> required "name" str_validate d
    <&> required "head_of_department" UNIType d
    <&> required "courses_list" (List_of (nested CourseBase.fields)) d
    <&> required "email" EmailStr d.

Definition validate : gmap string pyval → result (Model t) :=
  model_validate declared fields.
End validation.

Definition model_dump (c : t) : gmap string pyval :=
  <["department_code" := VStr (department_code c)]>
  (<["name" := VStr (name c)]>
  (<["head_of_department" := VStr (head_of_department c)]>
  (<["courses_list" :=
       VList ((λ x, VDict (CourseBase.model_dump x)) <$> courses_list c)]>
  (<["email" := VStr (email c)]> ∅)))).
End DepartmentBase.

Module DepartmentRead.
Record t : Type := mk {
  base : DepartmentBase.t;
  id : UUID;
  created_at : datetime;
  updated_at : datetime;
}.

Definition declared : list string :=
  DepartmentBase.declared ++ ["id"; "created_at"; "updated_at"].

Section validation.
Context {D : Deps}.

Definition validate (d : gmap string pyval) (w : world)
  : result (Model t) * world :=
  let rb := DepartmentBase.fields d in
  let '(rid, w1) := with_default_factory "id" UUID_validate uuid4 d w in
  let '(rc, w2) :=
    with_default_factory "created_at" datetime_validate now_utc d w1 in
  let '(ru, w3) :=
    with_default_factory "updated_at" datetime_validate now_utc d w2 in
  (fmap_result (λ a, MkModel a (fields_set declared d))
     (Ok mk <&> rb <&> rid <&> rc <&> ru),
   w3).
End validation.

Definition model_dump (r : t) : gmap string pyval :=
  <["id" := VUUID (id r)]>
  (<["created_at" := VDatetime (created_at r)]>
  (<["updated_at" := VDatetime (updated_at r)]>
  (DepartmentBase.model_dump (base r)))).
End DepartmentRead.

(** [class DepartmentCreate(DepartmentBase)] declares no field of its
    own. *)
Module DepartmentCreate.
Definition t : Type := DepartmentBase.t.
Definition declared : list string := DepartmentBase.declared.

Section validation.
Context {D : Deps}.

Definition validate : gmap string pyval → result (Model t) :=
  model_validate declared DepartmentBase.fields.
End validation.
End DepartmentCreate.

Module DepartmentUpdate.
Record t : Type := mk {
  department_code : option string;
  name : option string;
  head_of_department : option string;
  courses_list : option (list CourseBase.t);
  email : option string;
}.

Definition declared : list string :=
  ["department_code"; "name"; "head_of_department"; "courses_list";
   "email"].

Section validation.
Context {D : Deps}.

Definition fields (d : gmap string pyval) : result t :=
  Ok mk
    <&> required "department_code" (Optional str_validate) d
    <&> required "name" (Optional str_validate) d
    <&> required "head_of_department" (Optional UNIType) d
    <&> required "courses_list"
          (Optional (List_of (nested CourseBase.fields))) d
    <&> required "email" (Optional EmailStr) d.

Definition validate : gmap string pyval → result (Model t) :=
  model_validate declared fields.
End validation.
End DepartmentUpdate.

(** ** The dependencies fixed, for running the models on payloads *)

(** Modelled from the spec: the pattern of [UNIType], declared in
    [models/person.py].  The spec gives the grammar as lowercase letters
    followed by digits: [^[a-z]+\d+$]. *)
Definition UNIType_pattern_spec (s : string) : bool :=
  at_end (r ← some lower s; some digit r).

Fixpoint contains (c : ascii) (s : string) : bool :=
  match s with
  | String c' s' => bool_decide (c' = c) || contains c s'
  | EmptyString => false
  end.

(** The text before and after the first occurrence of [c]. *)
Fixpoint split_at (c : ascii) (s : string) : option (string * string) :=
  match s with
  | String c' s' =>
      if bool_decide (c' = c) then Some (EmptyString, s')
      else '(l, r) ← split_at c s'; Some (String c' l, r)
  | EmptyString => None
  end.

(** Modelled from the spec: the least the spec asks of an address,
    local-part@domain with at least one dot in the domain; the address is
    returned as it was given.  The grammar of the library is narrower and
    lower-cases the domain: this stand-in is run only on addresses that
    both accept and leave unchanged. *)
Definition EmailStr_parse_spec (s : string) : option string :=
  match split_at "@" s with
  | Some (local, domain) =>
      if negb (bool_decide (local = "")) && negb (contains "@" domain)
         && contains "." domain
      then Some s else None
  | None => None
  end.

(** The addresses of that grammar: a non-empty local part, one [@], and a
    domain with a dot. *)
Definition email_shape (s : string) : Prop :=
  ∃ local domain : string,
    s = (local +:+ String "@" domain)
    ∧ local ≠ ""
    ∧ contains "@" local = false
    ∧ contains "@" domain = false
    ∧ contains "." domain = true.

Fixpoint digits_value (acc : N) (s : string) : option N :=
  match s with
  | String c s' =>
      if digit c then digits_value (10 * acc + (N_of_ascii c - 48)) s'
      else None
  | EmptyString => Some acc
  end.

(** A non-empty run of decimal digits. *)
Definition decimal (s : string) : option N :=
  match s with
  | EmptyString => None
  | _ => digits_value 0 s
  end.

(** A decimal integer literal with an optional sign. *)
Definition str_as_int_decimal (s : string) : option Z :=
  match s with
  | String "-" s' => n ← decimal s'; Some (- Z.of_N n)
  | String "+" s' => n ← decimal s'; Some (Z.of_N n)
  | _ => n ← decimal s; Some (Z.of_N n)
  end.

Definition hex_digit (c : ascii) : option N :=
  let n := N_of_ascii c in
  if digit c then Some (n - 48)%N
  else if in_range 97 102 c then Some (n - 87)%N
  else if in_range 65 70 c then Some (n - 55)%N
  else None.

Fixpoint hex_value (acc : N) (s : string) : option N :=
  match s with
  | String c s' => h ← hex_digit c; hex_value (16 * acc + h) s'
  | EmptyString => Some acc
  end.

(** The canonical text of a UUID: 8-4-4-4-12 hexadecimal digits. *)
Definition str_as_uuid_canonical (s : string) : option UUID :=
  if bool_decide (String.length s = 36%nat)
     && bool_decide (substring 8 1 s = "-")
     && bool_decide (substring 13 1 s = "-")
     && bool_decide (substring 18 1 s = "-")
     && bool_decide (substring 23 1 s = "-")
  then hex_value 0 (substring 0 8 s ++ substring 9 4 s ++ substring 14 4 s
                    ++ substring 19 4 s ++ substring 24 12 s)
  else None.

Section calendar.
Local Open Scope Z_scope.

Definition leap_year (y : Z) : bool :=
  (y mod 4 =? 0) && (negb (y mod 100 =? 0) || (y mod 400 =? 0)).

Definition days_in_month (y m : Z) : Z :=
  if m =? 2 then (if leap_year y then 29 else 28)
  else if (m =? 4) || (m =? 6) || (m =? 9) || (m =? 11) then 30
  else 31.

(** Days from 1970-01-01 to the given date of the proleptic Gregorian
    calendar. *)
Definition days_from_civil (y m d : Z) : Z :=
  let y' := if m <=? 2 then y - 1 else y in
  let era := y' / 400 in
  let yoe := y' - era * 400 in
  let doy := (153 * ((m + 9) mod 12) + 2) / 5 + d - 1 in
  let doe := yoe * 365 + yoe / 4 - yoe / 100 + doy in
  era * 146097 + doe - 719468.

Definition number_at (start len : nat) (s : string) : option Z :=
  n ← decimal (substring start len s); Some (Z.of_N n).

(** The ISO-8601 text of a UTC instant to the second,
    [YYYY-MM-DDTHH:MM:SSZ]. *)
Definition str_as_datetime_utc (s : string) : option datetime :=
  y ← number_at 0 4 s; mo ← number_at 5 2 s; d ← number_at 8 2 s;
  h ← number_at 11 2 s; mi ← number_at 14 2 s; se ← number_at 17 2 s;
  if bool_decide (String.length s = 20%nat)
     && bool_decide (substring 4 1 s = "-")
     && bool_decide (substring 7 1 s = "-")
     && bool_decide (substring 10 1 s = "T")
     && bool_decide (substring 13 1 s = ":")
     && bool_decide (substring 16 1 s = ":")
     && bool_decide (substring 19 1 s = "Z")
     && (1 <=? y) && (1 <=? mo) && (mo <=? 12)
     && (1 <=? d) && (d <=? days_in_month y mo)
     && (h <=? 23) && (mi <=? 59) && (se <=? 59)
  then Some ((((days_from_civil y mo d * 24 + h) * 60 + mi) * 60 + se)
             * 1000000)
  else None.

(** A unix timestamp: seconds, or milliseconds when the number is too
    large for seconds. *)
Definition int_as_datetime_unix (z : Z) : option datetime :=
  if Z.abs z <=? 20000000000 then Some (z * 1000000) else Some (z * 1000).

End calendar.

(** [UNIType] and [EmailStr] as the spec words them; [int], [UUID] and
    [datetime] read the plain textual forms above, where the library
    parsers accept further spellings of the same values. *)
Definition SpecDeps : Deps := {|
  UNIType_pattern := UNIType_pattern_spec;
  EmailStr_parse := EmailStr_parse_spec;
  str_as_int := str_as_int_decimal;
  str_as_uuid := str_as_uuid_canonical;
  str_as_datetime := str_as_datetime_utc;
  int_as_datetime := int_as_datetime_unix;
|}.

Definition payload (kvs : list (string * pyval)) : gmap string pyval :=
  list_to_map kvs.

(** ** Payloads of the documented scenarios *)

(** The course of the creation scenario. *)
Definition cloud_computing : gmap string pyval :=
  payload [("course_number", VStr "COMS4153W"); ("name", VStr "Cloud Computing");
           ("professor_uni", VStr "dj2390"); ("credits", VInt 3);
           ("strength", VInt 120)].

Definition cloud_computing_record : CourseBase.t :=
  CourseBase.mk "COMS4153W" "Cloud Computing" "dj2390" 3 120.

(** The same course with an empty name. *)
Definition unnamed_course : gmap string pyval :=
  <["name" := VStr ""]> cloud_computing.

(** Four of the five values are not what the data model asks for. *)
Definition malformed_course : gmap string pyval :=
  payload [("course_number", VStr "cs101"); ("name", VStr "");
           ("professor_uni", VStr "123"); ("credits", VStr "x");
           ("strength", VInt 120)].

(** The second example of [CourseUpdate.model_config]. *)
Definition strength_only : gmap string pyval :=
  payload [("strength", VInt 60)].

(** The first example of [DepartmentUpdate.model_config]. *)
Definition department_name_only : gmap string pyval :=
  payload [("name", VStr "Industry and Engineering")].

(** The documented example value of [CourseUpdate.course_number]. *)
Definition renumbering : gmap string pyval :=
  payload [("course_number", VStr "COMS4995W"); ("professor_uni", VStr "dj2390")].

Definition renumbering_as_uni : gmap string pyval :=
  payload [("course_number", VStr "dj2390"); ("professor_uni", VStr "dj2390")].

Definition new_professor : gmap string pyval :=
  payload [("professor_uni", VStr "dj2390")].

Definition marketing_analytics : gmap string pyval :=
  payload [("course_number", VStr "IEOR4121W"); ("name", VStr "Marketing Analytics");
           ("professor_uni", VStr "dd39"); ("credits", VInt 3);
           ("strength", VInt 50)].

Definition department_of (courses : list pyval) (email : string)
    : gmap string pyval :=
  payload [("department_code", VStr "IEOR");
           ("name", VStr "Industrial Engineering and Operations Research");
           ("head_of_department", VStr "sm1231");
           ("courses_list", VList courses);
           ("email", VStr email)].

(** A department whose second course has a malformed number. *)
Definition department_with_bad_course : gmap string pyval :=
  department_of
    [VDict marketing_analytics;
     VDict (<["course_number" := VStr "ieor4123"]> marketing_analytics)]
    "info@ieor.columbia.edu".

(** A department without a code and without a name. *)
Definition anonymous_department : gmap string pyval :=
  <["department_code" := VStr ""]>
  (<["name" := VStr ""]> (department_of [] "cs@columbia.edu")).

(** A generator and a clock that ticks once per reading. *)
Definition ticking : world :=
  {| entropy := λ n, (1000 + N.of_nat n)%N; drawn := 0;
     clock := λ n, (1736936430000000 + Z.of_nat n)%Z; ticks := 0 |}.

(** The payload supplies none of the fields the read models add. *)
Definition server_fields_absent (d : gmap string pyval) : Prop :=
  d !! "id" = None ∧ d !! "created_at" = None ∧ d !! "updated_at" = None.

(** The world after one identifier was drawn and the clock read twice. *)
Definition after_generation (w : world) : world :=
  {| entropy := entropy w; drawn := S (drawn w);
     clock := clock w; ticks := S (S (ticks w)) |}.

(** The read instance whose three added fields were all generated in
    [w]. *)
Definition CourseRead_generated (w : world) (d : gmap string pyval)
    (b : CourseBase.t) : Model CourseRead.t :=
  MkModel
    (CourseRead.mk b (entropy w (drawn w)) (clock w (ticks w))
       (clock w (S (ticks w))))
    (fields_set CourseRead.declared d).

Definition DepartmentRead_generated (w : world) (d : gmap string pyval)
    (b : DepartmentBase.t) : Model DepartmentRead.t :=
  MkModel
    (DepartmentRead.mk b (entropy w (drawn w)) (clock w (ticks w))
       (clock w (S (ticks w))))
    (fields_set DepartmentRead.declared d).

(** The line errors of a plain [str] field for a supplied value. *)
Definition str_errors (name : string) (v : pyval) : list line_error :=
  match v with
  | VStr _ => []
  | _ => [LineError [Key name] string_type]
  end.

(** ** Further payloads and notions *)

(** The course of the creation scenario without its credits. *)
Definition course_without_credits : gmap string pyval :=
  payload [("course_number", VStr "COMS4153W"); ("name", VStr "Cloud Computing");
           ("professor_uni", VStr "dj2390"); ("strength", VInt 120)].

(** How many values a default factory has to supply for key [k]. *)
Definition absent (d : gmap string pyval) (k : string) : nat :=
  match d !! k with
  | Some _ => 0%nat
  | None => 1%nat
  end.

(** A department without courses. *)
Definition empty_department : gmap string pyval :=
  department_of [] "cs@columbia.edu".

Definition empty_department_record : DepartmentBase.t :=
  DepartmentBase.mk "IEOR" "Industrial Engineering and Operations Research"
    "sm1231" [] "cs@columbia.edu".

(** The update that sets every field of a department. *)
Definition DepartmentUpdate_of (b : DepartmentBase.t) : DepartmentUpdate.t :=
  DepartmentUpdate.mk
    (Some (DepartmentBase.department_code b))
    (Some (DepartmentBase.name b))
    (Some (DepartmentBase.head_of_department b))
    (Some (DepartmentBase.courses_list b))
    (Some (DepartmentBase.email b)).

(** No declared field is given as [None]. *)
Definition no_null (declared : list string) (d : gmap string pyval) : Prop :=
  ∀ f, f ∈ declared → d !! f ≠ Some VNone.

Definition marketing_analytics_record : CourseBase.t :=
  CourseBase.mk "IEOR4121W" "Marketing Analytics" "dd39" 3 50.

(** The same course listed twice. *)
Definition department_with_duplicates : gmap string pyval :=
  department_of [VDict marketing_analytics; VDict marketing_analytics]
    "info@ieor.columbia.edu".

(** [EmailStr] returns a normalised address: normalising it again gives
    the same address. *)
Definition EmailStr_idempotent (D : Deps) : Prop :=
  ∀ s e, EmailStr_parse s = Some e → EmailStr_parse e = Some e.

(** Every character of the string is an ASCII character. *)
Definition is_ascii (s : string) : Prop :=
  Forall (λ c, (N_of_ascii c < 128)%N) (list_ascii_of_string s).

(** A clock that is set back between two readings. *)
Definition set_back : world :=
  {| entropy := λ n, (1000 + N.of_nat n)%N; drawn := 0;
     clock := λ n, (1736936430000000 - Z.of_nat n)%Z; ticks := 0 |}.

(** * Properties *)

Open Scope list_scope.

(** ** Collecting errors *)

Lemma errors_ap {A B} (rf : result (A → B)) (ra : result A) :
  errors (rf <&> ra) = errors rf ++ errors ra.
Proof.
  destruct rf, ra; simpl; try reflexivity.
  symmetry; apply app_nil_r.
Qed.

Lemma is_ok_ap {A B} (rf : result (A → B)) (ra : result A) :
  is_ok (rf <&> ra) = is_ok rf && is_ok ra.
Proof. by destruct rf, ra. Qed.

Lemma errors_fmap_result {A B} (f : A → B) (r : result A) :
  errors (fmap_result f r) = errors r.
Proof. by destruct r. Qed.

Lemma is_ok_fmap_result {A B} (f : A → B) (r : result A) :
  is_ok (fmap_result f r) = is_ok r.
Proof. by destruct r. Qed.

Lemma errors_at_loc {A} (i : loc_item) (r : result A) :
  errors (at_loc i r) = under i <$> errors r.
Proof. by destruct r. Qed.

Lemma is_ok_at_loc {A} (i : loc_item) (r : result A) :
  is_ok (at_loc i r) = is_ok r.
Proof. by destruct r. Qed.

Lemma fmap_result_ok_inv {A B} (f : A → B) (r : result A) (b : B) :
  fmap_result f r = Ok b → ∃ a, r = Ok a ∧ b = f a.
Proof.
  destruct r as [a|]; simpl; intros Hb; try discriminate.
  exists a. by inversion Hb.
Qed.

Lemma at_loc_ok_inv {A} (i : loc_item) (r : result A) (a : A) :
  at_loc i r = Ok a → r = Ok a.
Proof. by destruct r. Qed.

(** ** Keys a model does not declare *)

Lemma required_insert_ne {A} (k name : string) (v : pyval)
    (T : pyval → result A) (d : gmap string pyval) :
  k ≠ name → required name T (<[k := v]> d) = required name T d.
Proof. intros Hne. unfold required. by rewrite lookup_insert_ne. Qed.

Lemma with_default_insert_ne {A} (k name : string) (v : pyval)
    (T : pyval → result A) (dflt : A) (d : gmap string pyval) :
  k ≠ name → with_default name T dflt (<[k := v]> d) = with_default name T dflt d.
Proof. intros Hne. unfold with_default. by rewrite lookup_insert_ne. Qed.

Lemma fields_set_insert_ne (declared : list string) (k : string) (v : pyval)
    (d : gmap string pyval) :
  k ∉ declared → fields_set declared (<[k := v]> d) = fields_set declared d.
Proof.
  intros Hk. unfold fields_set. f_equal.
  induction declared as [|f fs IH]; [done|].
  apply not_elem_of_cons in Hk as [Hne Hfs].
  rewrite !filter_cons, lookup_insert_ne by done.
  rewrite IH by done. reflexivity.
Qed.

Lemma elem_of_fields_set (declared : list string) (d : gmap string pyval)
    (f : string) :
  f ∈ fields_set declared d ↔ f ∈ declared ∧ is_Some (d !! f).
Proof.
  unfold fields_set. rewrite elem_of_list_to_set, list_elem_of_filter.
  tauto.
Qed.

Section undeclared_keys.
Context {D : Deps}.

Lemma CourseBase_fields_insert_ne (k : string) (v : pyval)
    (d : gmap string pyval) :
  k ∉ CourseBase.declared →
  CourseBase.fields (<[k := v]> d) = CourseBase.fields d.
Proof.
  unfold CourseBase.declared, CourseBase.fields. intros Hk.
  repeat (apply not_elem_of_cons in Hk as [? Hk]).
  by rewrite !required_insert_ne.
Qed.

Lemma CourseUpdate_fields_insert_ne (k : string) (v : pyval)
    (d : gmap string pyval) :
  k ∉ CourseUpdate.declared →
  CourseUpdate.fields (<[k := v]> d) = CourseUpdate.fields d.
Proof.
  unfold CourseUpdate.declared, CourseUpdate.fields. intros Hk.
  repeat (apply not_elem_of_cons in Hk as [? Hk]).
  by rewrite !with_default_insert_ne, !required_insert_ne.
Qed.

Lemma DepartmentBase_fields_insert_ne (k : string) (v : pyval)
    (d : gmap string pyval) :
  k ∉ DepartmentBase.declared →
  DepartmentBase.fields (<[k := v]> d) = DepartmentBase.fields d.
Proof.
  unfold DepartmentBase.declared, DepartmentBase.fields. intros Hk.
  repeat (apply not_elem_of_cons in Hk as [? Hk]).
  by rewrite !required_insert_ne.
Qed.

Lemma DepartmentUpdate_fields_insert_ne (k : string) (v : pyval)
    (d : gmap string pyval) :
  k ∉ DepartmentUpdate.declared →
  DepartmentUpdate.fields (<[k := v]> d) = DepartmentUpdate.fields d.
Proof.
  unfold DepartmentUpdate.declared, DepartmentUpdate.fields. intros Hk.
  repeat (apply not_elem_of_cons in Hk as [? Hk]).
  by rewrite !required_insert_ne.
Qed.

Lemma model_validate_insert_ne {A} (declared : list string)
    (fields : gmap string pyval → result A) (k : string) (v : pyval)
    (d : gmap string pyval) :
  k ∉ declared → fields (<[k := v]> d) = fields d →
  model_validate declared fields (<[k := v]> d)
  = model_validate declared fields d.
Proof.
  intros Hk Hfields. unfold model_validate.
  by rewrite Hfields, fields_set_insert_ne.
Qed.
End undeclared_keys.

(** ** Errors by field *)

Lemma field_errors_eq {A} (f : string) (r : result A) :
  field_errors f r = filter (λ e, on_field f e = true) (errors r).
Proof. reflexivity. Qed.

Lemma on_field_under (f name : string) (e : line_error) :
  on_field f (under (Key name) e) = bool_decide (name = f).
Proof. reflexivity. Qed.

Lemma filter_on_field_under (f name : string) (es : list line_error) :
  filter (λ e, on_field f e = true) (under (Key name) <$> es)
  = if decide (name = f) then under (Key name) <$> es else [].
Proof.
  induction es as [|e es IH]; [by case_decide|].
  rewrite fmap_cons, (filter_cons (λ e, on_field f e = true)), IH.
  rewrite on_field_under.
  destruct (decide (name = f)) as [Hnf|Hnf]; by case_bool_decide.
Qed.

Lemma field_errors_required {A} (f name : string) (T : pyval → result A)
    (d : gmap string pyval) :
  field_errors f (required name T d)
  = if decide (name = f) then errors (required name T d) else [].
Proof.
  rewrite field_errors_eq. unfold required.
  destruct (d !! name) as [v|].
  - rewrite errors_at_loc. apply filter_on_field_under.
  - apply (filter_on_field_under f name [LineError [] missing]).
Qed.

Lemma field_errors_with_default {A} (f name : string) (T : pyval → result A)
    (dflt : A) (d : gmap string pyval) :
  field_errors f (with_default name T dflt d)
  = if decide (name = f) then errors (with_default name T dflt d) else [].
Proof.
  rewrite field_errors_eq. unfold with_default.
  destruct (d !! name) as [v|].
  - rewrite errors_at_loc. apply filter_on_field_under.
  - by case_decide.
Qed.

Lemma field_errors_ap {A B} (f : string) (rf : result (A → B))
    (ra : result A) :
  field_errors f (rf <&> ra) = field_errors f rf ++ field_errors f ra.
Proof. by rewrite !field_errors_eq, errors_ap, filter_app. Qed.

Lemma field_errors_fmap_result {A B} (f : string) (g : A → B)
    (r : result A) :
  field_errors f (fmap_result g r) = field_errors f r.
Proof. by rewrite !field_errors_eq, errors_fmap_result. Qed.

Lemma field_errors_Ok {A} (f : string) (a : A) : field_errors f (Ok a) = [].
Proof. reflexivity. Qed.

(** Splits the errors of a model by declared field and drops the fields
    other than the one asked for. *)
Ltac by_field :=
  repeat first
    [ rewrite field_errors_fmap_result
    | rewrite field_errors_ap
    | rewrite field_errors_required
    | rewrite field_errors_with_default
    | rewrite field_errors_Ok ];
  repeat (case_decide; [try discriminate|try congruence]);
  rewrite ?app_nil_l, ?app_nil_r.

(** ** The course-number pattern *)

Lemma string_of_list_ascii_app (l1 l2 : list ascii) :
  string_of_list_ascii (l1 ++ l2)
  = (string_of_list_ascii l1 +:+ string_of_list_ascii l2).
Proof. induction l1 as [|c l1 IH]; simpl; [done|by rewrite IH]. Qed.

Lemma exactly_Some (n : nat) (cl : ascii → bool) (s r : string) :
  exactly n cl s = Some r ↔
  ∃ l, s = (string_of_list_ascii l +:+ r) ∧ length l = n
       ∧ Forall (λ c, cl c = true) l.
Proof.
  revert s. induction n as [|n IH]; intros s; simpl.
  - split.
    + intros [= ->]. by exists [].
    + intros (l & -> & Hlen & _). by destruct l.
  - destruct s as [|c s]; simpl.
    + split; [done|]. intros (l & Hs & Hlen & _). by destruct l.
    + destruct (cl c) eqn:Hc.
      * rewrite IH. split.
        -- intros (l & -> & Hlen & Hall).
           exists (c :: l). simpl. by rewrite Hlen, Forall_cons.
        -- intros (l & Hs & Hlen & Hall). destruct l as [|c' l]; [done|].
           simpl in Hs, Hlen. injection Hs as -> ->.
           apply Forall_cons in Hall as [_ Hall].
           exists l. split_and!; [done|lia|done].
      * split; [done|]. intros (l & Hs & Hlen & Hall).
        destruct l as [|c' l]; [done|]. simpl in Hs. injection Hs as -> ->.
        apply Forall_cons in Hall as [Hc' _]. congruence.
Qed.

(** The pattern accepts exactly the strings made of four uppercase
    letters, four digits and one uppercase letter. *)
Lemma CourseNumberType_pattern_shape (s : string) :
  CourseNumberType_pattern s = true ↔ course_number_shape s.
Proof.
  unfold CourseNumberType_pattern, course_number_shape. split.
  - destruct (exactly 4 upper s) as [r1|] eqn:H1; cbn [mbind option_bind]; [|done].
    destruct (exactly 4 digit r1) as [r2|] eqn:H2; cbn [mbind option_bind]; [|done].
    destruct (exactly 1 upper r2) as [[|]|] eqn:H3; try done. intros _.
    apply exactly_Some in H1 as (dept & -> & Hd & Hdept).
    apply exactly_Some in H2 as (num & -> & Hn & Hnum).
    apply exactly_Some in H3 as (l3 & -> & Hl3 & Hsuffix).
    destruct l3 as [|suffix [|]]; try done.
    apply Forall_cons in Hsuffix as [Hsuffix _].
    exists dept, num, suffix.
    by rewrite !string_of_list_ascii_app.
  - intros (dept & num & suffix & -> & Hd & Hdept & Hn & Hnum & Hsuffix).
    rewrite !string_of_list_ascii_app.
    assert (exactly 4 upper
              (string_of_list_ascii dept +:+
               (string_of_list_ascii num +:+ string_of_list_ascii [suffix]))
            = Some (string_of_list_ascii num +:+ string_of_list_ascii [suffix]))
      as -> by (apply exactly_Some; eauto).
    cbn [mbind option_bind].
    assert (exactly 4 digit
              (string_of_list_ascii num +:+ string_of_list_ascii [suffix])
            = Some (string_of_list_ascii [suffix])) as ->
      by (apply exactly_Some; eauto).
    simpl. by rewrite Hsuffix.
Qed.

(** ** When a model yields an instance *)

Section instances.
Context {D : Deps}.

Lemma CourseBase_fields_Ok (d : gmap string pyval) (c : CourseBase.t) :
  CourseBase.fields d = Ok c ↔
  required "course_number" CourseNumberType d = Ok (CourseBase.course_number c)
  ∧ required "name" str_validate d = Ok (CourseBase.name c)
  ∧ required "professor_uni" UNIType d = Ok (CourseBase.professor_uni c)
  ∧ required "credits" int_validate d = Ok (CourseBase.credits c)
  ∧ required "strength" int_validate d = Ok (CourseBase.strength c).
Proof.
  unfold CourseBase.fields. split.
  - destruct (required "course_number" _ d), (required "name" _ d),
      (required "professor_uni" _ d), (required "credits" _ d),
      (required "strength" _ d); simpl; intros [= <-]; done.
  - intros (-> & -> & -> & -> & ->). by destruct c.
Qed.

Lemma CourseUpdate_fields_Ok (d : gmap string pyval) (c : CourseUpdate.t) :
  CourseUpdate.fields d = Ok c ↔
  with_default "course_number" (Optional UNIType) None d
    = Ok (CourseUpdate.course_number c)
  ∧ with_default "name" (Optional str_validate) None d
    = Ok (CourseUpdate.name c)
  ∧ with_default "credits" (Optional int_validate) None d
    = Ok (CourseUpdate.credits c)
  ∧ required "professor_uni" (Optional UNIType) d
    = Ok (CourseUpdate.professor_uni c)
  ∧ with_default "strength" (Optional int_validate) None d
    = Ok (CourseUpdate.strength c).
Proof.
  unfold CourseUpdate.fields. split.
  - destruct (with_default "course_number" _ _ d),
      (with_default "name" _ _ d), (with_default "credits" _ _ d),
      (required "professor_uni" _ d), (with_default "strength" _ _ d);
      simpl; intros [= <-]; done.
  - intros (-> & -> & -> & -> & ->). by destruct c.
Qed.

Lemma DepartmentBase_fields_Ok (d : gmap string pyval)
    (c : DepartmentBase.t) :
  DepartmentBase.fields d = Ok c ↔
  required "department_code" str_validate d
    = Ok (DepartmentBase.department_code c)
  ∧ required "name" str_validate d = Ok (DepartmentBase.name c)
  ∧ required "head_of_department" UNIType d
    = Ok (DepartmentBase.head_of_department c)
  ∧ required "courses_list" (List_of (nested CourseBase.fields)) d
    = Ok (DepartmentBase.courses_list c)
  ∧ required "email" EmailStr d = Ok (DepartmentBase.email c).
Proof.
  unfold DepartmentBase.fields. split.
  - destruct (required "department_code" _ d), (required "name" _ d),
      (required "head_of_department" _ d), (required "courses_list" _ d),
      (required "email" _ d); simpl; intros [= <-]; done.
  - intros (-> & -> & -> & -> & ->). by destruct c.
Qed.

Lemma model_validate_Ok {A} (declared : list string)
    (fields : gmap string pyval → result A) (d : gmap string pyval)
    (m : Model A) :
  model_validate declared fields d = Ok m ↔
  fields d = Ok (data m) ∧ model_fields_set m = fields_set declared d.
Proof.
  unfold model_validate. destruct (fields d) as [a|es]; simpl.
  - split.
    + by intros [= <-].
    + intros [[= ->] Hset]. destruct m; simpl in *. by subst.
  - split; [done|]. by intros [? _].
Qed.

Lemma required_Ok_lookup {A} (name : string) (T : pyval → result A)
    (d : gmap string pyval) (a : A) :
  required name T d = Ok a → ∃ v, d !! name = Some v ∧ T v = Ok a.
Proof.
  unfold required. destruct (d !! name) as [v|]; [|done].
  intros Hv%at_loc_ok_inv. eauto.
Qed.

Lemma required_insert {A} (name : string) (T : pyval → result A)
    (v : pyval) (d : gmap string pyval) :
  required name T (<[name := v]> d) = at_loc (Key name) (T v).
Proof. unfold required. by rewrite lookup_insert_eq. Qed.

Lemma with_default_insert {A} (name : string) (T : pyval → result A)
    (dflt : A) (v : pyval) (d : gmap string pyval) :
  with_default name T dflt (<[name := v]> d) = at_loc (Key name) (T v).
Proof. unfold with_default. by rewrite lookup_insert_eq. Qed.

(** *** The course number of a course *)

(** [CourseBase] checks a supplied course number against the pattern.
    [CourseCreate], [CourseRead] and the elements of a department's
    [courses_list] run these same fields. *)
Lemma CourseBase_course_number_checked (d : gmap string pyval) (s : string) :
  field_errors "course_number"
    (CourseBase.fields (<["course_number" := VStr s]> d))
  = if CourseNumberType_pattern s then []
    else [LineError [Key "course_number"] string_pattern_mismatch].
Proof.
  unfold CourseBase.fields. by_field.
  rewrite required_insert. simpl.
  by destruct (CourseNumberType_pattern s).
Qed.

Lemma CourseBase_course_number_unchanged (d : gmap string pyval)
    (s : string) (c : CourseBase.t) :
  CourseBase.fields (<["course_number" := VStr s]> d) = Ok c →
  CourseBase.course_number c = s ∧ CourseNumberType_pattern s = true.
Proof.
  intros (Hcn & _)%CourseBase_fields_Ok.
  rewrite required_insert in Hcn. simpl in Hcn.
  destruct (CourseNumberType_pattern s); [|done].
  by injection Hcn as ->.
Qed.

(** [CourseUpdate] checks a supplied course number against the pattern
    of [UNIType]. *)
Lemma CourseUpdate_course_number_checked (d : gmap string pyval)
    (s : string) :
  field_errors "course_number"
    (CourseUpdate.fields (<["course_number" := VStr s]> d))
  = if UNIType_pattern s then []
    else [LineError [Key "course_number"] string_pattern_mismatch].
Proof.
  unfold CourseUpdate.fields. by_field.
  rewrite with_default_insert. simpl.
  by destruct (UNIType_pattern s).
Qed.
End instances.

(** C1.  [CourseUpdate] declares [course_number] as [Optional[UNIType]]:
    a supplied course number is checked against the pattern of [UNIType],
    not against [^[A-Z]{4}\d{4}[A-Z]$].  With the grammar the spec gives
    for a UNI, the field's own documented example "COMS4995W", which
    matches the course-number pattern, is refused with a pattern error on
    [course_number], and "dj2390", which does not match it, is accepted
    and stored. *)
Theorem C1_CourseUpdate_checks_course_number_as_UNI :
  CourseNumberType_pattern "COMS4995W" = true
  ∧ CourseUpdate.validate (D:=SpecDeps) renumbering
    = Err [LineError [Key "course_number"] string_pattern_mismatch]
  ∧ CourseNumberType_pattern "dj2390" = false
  ∧ fmap_result (CourseUpdate.course_number ∘ data)
      (CourseUpdate.validate (D:=SpecDeps) renumbering_as_uni)
    = Ok (Some "dj2390").
Proof. by vm_compute. Qed.

(** C2.  [CourseUpdate.professor_uni] is declared with [Field(...)] and
    so is every field of [DepartmentUpdate]: these keys must be present.
    The payload [{"strength": 60}], an example of
    [CourseUpdate.model_config], is refused because [professor_uni] is
    missing, and [{"name": "Industry and Engineering"}], an example of
    [DepartmentUpdate.model_config], because the four other fields are
    missing. *)
Theorem C2_update_examples_are_refused (D : Deps) :
  CourseUpdate.validate strength_only
  = Err [LineError [Key "professor_uni"] missing]
  ∧ DepartmentUpdate.validate department_name_only
    = Err [LineError [Key "department_code"] missing;
           LineError [Key "head_of_department"] missing;
           LineError [Key "courses_list"] missing;
           LineError [Key "email"] missing].
Proof. by vm_compute. Qed.

(** ** Presence of the fields of an update *)

Section presence.
Context {D : Deps}.

Lemma fields_set_tracks_presence {A} (declared : list string)
    (fields : gmap string pyval → result A) (p : gmap string pyval)
    (r : Model A) (f : string) :
  model_validate declared fields p = Ok r → f ∈ declared →
  f ∈ model_fields_set r ↔ is_Some (p !! f).
Proof.
  intros [_ ->]%model_validate_Ok Hf. rewrite elem_of_fields_set. tauto.
Qed.

(** A null for an omitted field of [CourseUpdate] gives the same field
    values. *)
Lemma CourseUpdate_null_for_omitted (p : gmap string pyval) (f : string)
    (c : CourseUpdate.t) :
  f ∈ CourseUpdate.declared → p !! f = None →
  CourseUpdate.fields p = Ok c →
  CourseUpdate.fields (<[f := VNone]> p) = Ok c.
Proof.
  intros Hf Hp. rewrite !CourseUpdate_fields_Ok.
  intros (Hcn & Hname & Hcredits & Hprof & Hstrength).
  unfold CourseUpdate.declared in Hf.
  repeat (apply elem_of_cons in Hf as [->|Hf]);
    [..|by apply elem_of_nil in Hf];
    rewrite ?with_default_insert, ?required_insert,
      ?with_default_insert_ne, ?required_insert_ne by done;
    try (split_and!; try done).
  - by unfold with_default in Hcn; rewrite Hp in Hcn.
  - by unfold with_default in Hname; rewrite Hp in Hname.
  - by unfold with_default in Hcredits; rewrite Hp in Hcredits.
  - by unfold required in Hprof; rewrite Hp in Hprof.
  - by unfold with_default in Hstrength; rewrite Hp in Hstrength.
Qed.

Lemma DepartmentUpdate_omitted_is_missing (p : gmap string pyval)
    (f : string) :
  f ∈ DepartmentUpdate.declared → p !! f = None →
  field_errors f (DepartmentUpdate.validate p) = [LineError [Key f] missing].
Proof.
  intros Hf Hp. unfold DepartmentUpdate.declared in Hf.
  unfold DepartmentUpdate.validate, model_validate,
    DepartmentUpdate.fields.
  repeat (apply elem_of_cons in Hf as [->|Hf]);
    [..|by apply elem_of_nil in Hf];
    by_field; unfold required; by rewrite Hp.
Qed.

Lemma DepartmentUpdate_null_is_accepted (p : gmap string pyval)
    (f : string) :
  f ∈ DepartmentUpdate.declared →
  field_errors f (DepartmentUpdate.validate (<[f := VNone]> p)) = [].
Proof.
  intros Hf. unfold DepartmentUpdate.declared in Hf.
  unfold DepartmentUpdate.validate, model_validate,
    DepartmentUpdate.fields.
  repeat (apply elem_of_cons in Hf as [->|Hf]);
    [..|by apply elem_of_nil in Hf];
    by_field; by rewrite required_insert.
Qed.

Lemma field_errors_not_ok {A} (f : string) (r : result A) :
  field_errors f r ≠ [] → is_ok r = false.
Proof. by destruct r. Qed.

Lemma CourseUpdate_missing_professor_uni (d : gmap string pyval) :
  d !! "professor_uni" = None →
  field_errors "professor_uni" (CourseUpdate.validate d)
  = [LineError [Key "professor_uni"] missing].
Proof.
  intros Hd. unfold CourseUpdate.validate, model_validate, CourseUpdate.fields.
  by_field. unfold required. by rewrite Hd.
Qed.
End presence.

(** Presence in a course update: a declared field is in
    [model_fields_set] exactly when its key was present, and replacing an
    omitted field by an explicit null is accepted with the same field
    values and a different [model_fields_set]. *)
Lemma CourseUpdate_presence_is_tracked (D : Deps) (p : gmap string pyval)
    (f : string) (r : Model CourseUpdate.t) :
  CourseUpdate.validate p = Ok r → f ∈ CourseUpdate.declared →
  (f ∈ model_fields_set r ↔ is_Some (p !! f))
  ∧ (p !! f = None →
     ∃ r', CourseUpdate.validate (<[f := VNone]> p) = Ok r'
           ∧ data r' = data r
           ∧ f ∈ model_fields_set r' ∧ f ∉ model_fields_set r).
Proof.
  intros Hr Hf. split.
  - by apply (fields_set_tracks_presence _ _ _ _ _ Hr).
  - intros Hp.
    apply model_validate_Ok in Hr as [Hfields Hset].
    exists (MkModel (data r)
              (fields_set CourseUpdate.declared (<[f := VNone]> p))).
    split_and!.
    + apply model_validate_Ok. split; [|done]. simpl.
      by apply CourseUpdate_null_for_omitted.
    + done.
    + simpl. apply elem_of_fields_set. split; [done|].
      rewrite lookup_insert_eq. eauto.
    + rewrite Hset, elem_of_fields_set, Hp. by intros [_ [? ?]].
Qed.

(** C3.  An update payload that omits [professor_uni] of [CourseUpdate],
    or any field of [DepartmentUpdate], is refused with a [missing] error
    on that field: the omitted field is not represented in any instance,
    because these fields are declared with [Field(...)]. *)
Theorem C3_omitted_required_field_is_refused (D : Deps)
    (p : gmap string pyval) (f : string) :
  p !! f = None →
  (f = "professor_uni" →
     field_errors f (CourseUpdate.validate p) = [LineError [Key f] missing]
     ∧ is_ok (CourseUpdate.validate p) = false)
  ∧ (f ∈ DepartmentUpdate.declared →
       field_errors f (DepartmentUpdate.validate p)
       = [LineError [Key f] missing]
       ∧ is_ok (DepartmentUpdate.validate p) = false).
Proof.
  intros Hp. split.
  - intros ->. pose proof (CourseUpdate_missing_professor_uni p Hp) as He.
    split; [done|]. apply (field_errors_not_ok "professor_uni").
    by rewrite He.
  - intros Hf. pose proof (DepartmentUpdate_omitted_is_missing p f Hf Hp) as He.
    split; [done|]. apply (field_errors_not_ok f). by rewrite He.
Qed.

(** The two update examples of the models: [{"strength": 60}] and
    [{"name": "Industry and Engineering"}]. *)
Lemma C3_omitted_required_field_is_refused_witness :
  is_ok (CourseUpdate.validate (D:=SpecDeps) strength_only) = false
  ∧ field_errors "email"
      (DepartmentUpdate.validate (D:=SpecDeps) department_name_only)
    = [LineError [Key "email"] missing].
Proof.
  destruct (C3_omitted_required_field_is_refused SpecDeps strength_only
              "professor_uni" eq_refl) as [Hcourse _].
  destruct (C3_omitted_required_field_is_refused SpecDeps
              department_name_only "email" eq_refl) as [_ Hdepartment].
  split.
  - by apply Hcourse.
  - apply Hdepartment. compute_done.
Defined.

(** ** Free-form strings *)

Section free_form.
Context {D : Deps}.

Lemma errors_str_field (name : string) (v : pyval) :
  errors (at_loc (Key name) (str_validate v)) = str_errors name v.
Proof. by destruct v. Qed.

Lemma CourseBase_name_errors (d : gmap string pyval) (v : pyval) :
  field_errors "name" (CourseBase.fields (<["name" := v]> d))
  = str_errors "name" v.
Proof.
  unfold CourseBase.fields. by_field.
  by rewrite required_insert, errors_str_field.
Qed.

Lemma DepartmentBase_name_errors (d : gmap string pyval) (v : pyval) :
  field_errors "name" (DepartmentBase.fields (<["name" := v]> d))
  = str_errors "name" v.
Proof.
  unfold DepartmentBase.fields. by_field.
  by rewrite required_insert, errors_str_field.
Qed.

Lemma DepartmentBase_department_code_errors (d : gmap string pyval)
    (v : pyval) :
  field_errors "department_code"
    (DepartmentBase.fields (<["department_code" := v]> d))
  = str_errors "department_code" v.
Proof.
  unfold DepartmentBase.fields. by_field.
  by rewrite required_insert, errors_str_field.
Qed.

Lemma CourseBase_name_stored (d : gmap string pyval) (s : string)
    (c : CourseBase.t) :
  CourseBase.fields (<["name" := VStr s]> d) = Ok c → CourseBase.name c = s.
Proof.
  intros (_ & Hname & _)%CourseBase_fields_Ok.
  rewrite required_insert in Hname. by injection Hname.
Qed.

Lemma DepartmentBase_name_stored (d : gmap string pyval) (s : string)
    (c : DepartmentBase.t) :
  DepartmentBase.fields (<["name" := VStr s]> d) = Ok c →
  DepartmentBase.name c = s.
Proof.
  intros (_ & Hname & _)%DepartmentBase_fields_Ok.
  rewrite required_insert in Hname. by injection Hname.
Qed.

Lemma DepartmentBase_department_code_stored (d : gmap string pyval)
    (s : string) (c : DepartmentBase.t) :
  DepartmentBase.fields (<["department_code" := VStr s]> d) = Ok c →
  DepartmentBase.department_code c = s.
Proof.
  intros (Hcode & _)%DepartmentBase_fields_Ok.
  rewrite required_insert in Hcode. by injection Hcode.
Qed.

Lemma fmap_result_const {A B} (g : A → B) (b : B) (r : result A) :
  (∀ a, r = Ok a → g a = b) →
  fmap_result g r = fmap_result (λ _, b) r.
Proof. destruct r as [a|]; simpl; [|done]. intros ->; done. Qed.
End free_form.

(** C4, as the code has it.  The three fields are plain [str] fields: a
    value supplied for one of them is refused exactly when it is not a
    string, and every string, the empty one included, is accepted and
    stored as given. *)
Theorem C4_any_string_is_accepted (D : Deps) (d : gmap string pyval)
    (v : pyval) (s : string) :
  field_errors "name" (CourseCreate.validate (<["name" := v]> d))
  = str_errors "name" v
  ∧ field_errors "name" (DepartmentCreate.validate (<["name" := v]> d))
    = str_errors "name" v
  ∧ field_errors "department_code"
      (DepartmentCreate.validate (<["department_code" := v]> d))
    = str_errors "department_code" v
  ∧ str_errors "name" (VStr s) = []
  ∧ str_errors "department_code" (VStr s) = []
  ∧ fmap_result (CourseBase.name ∘ data)
      (CourseCreate.validate (<["name" := VStr s]> d))
    = fmap_result (λ _, s) (CourseCreate.validate (<["name" := VStr s]> d))
  ∧ fmap_result (DepartmentBase.name ∘ data)
      (DepartmentCreate.validate (<["name" := VStr s]> d))
    = fmap_result (λ _, s)
        (DepartmentCreate.validate (<["name" := VStr s]> d))
  ∧ fmap_result (DepartmentBase.department_code ∘ data)
      (DepartmentCreate.validate (<["department_code" := VStr s]> d))
    = fmap_result (λ _, s)
        (DepartmentCreate.validate (<["department_code" := VStr s]> d)).
Proof.
  unfold CourseCreate.validate, DepartmentCreate.validate, model_validate.
  rewrite !field_errors_fmap_result.
  split_and!; try done.
  - apply CourseBase_name_errors.
  - apply DepartmentBase_name_errors.
  - apply DepartmentBase_department_code_errors.
  - apply fmap_result_const. intros m (c & Hc & ->)%fmap_result_ok_inv.
    simpl. by apply CourseBase_name_stored in Hc.
  - apply fmap_result_const. intros m (c & Hc & ->)%fmap_result_ok_inv.
    simpl. by apply DepartmentBase_name_stored in Hc.
  - apply fmap_result_const. intros m (c & Hc & ->)%fmap_result_ok_inv.
    simpl. by apply DepartmentBase_department_code_stored in Hc.
Qed.

(** C4, as stated, fails: a course whose name is the empty string, and a
    department whose name and code are empty strings, are accepted. *)
Lemma C4_empty_strings_are_accepted :
  fmap_result (CourseBase.name ∘ data)
    (CourseCreate.validate (D:=SpecDeps) unnamed_course) = Ok ""
  ∧ fmap_result
      (λ m, (DepartmentBase.name (data m),
             DepartmentBase.department_code (data m)))
      (DepartmentCreate.validate (D:=SpecDeps) anonymous_department)
    = Ok ("", "").
Proof. by vm_compute. Qed.

(** ** The fields a read model adds *)

Section server_fields.
Context {D : Deps}.

Lemma with_default_factory_insert {A} (name : string)
    (T : pyval → result A) (factory : world → A * world) (v : pyval)
    (d : gmap string pyval) (w : world) :
  with_default_factory name T factory (<[name := v]> d) w
  = (at_loc (Key name) (T v), w).
Proof. unfold with_default_factory. by rewrite lookup_insert_eq. Qed.

Lemma with_default_factory_absent {A} (name : string)
    (T : pyval → result A) (factory : world → A * world)
    (d : gmap string pyval) (w : world) :
  d !! name = None →
  with_default_factory name T factory d w
  = (Ok (factory w).1, (factory w).2).
Proof.
  intros Hd. unfold with_default_factory. rewrite Hd.
  by destruct (factory w).
Qed.

Lemma CourseRead_validate_eq (d : gmap string pyval) (w : world) :
  CourseRead.validate d w
  = let rid := with_default_factory "id" UUID_validate uuid4 d w in
    let rc :=
      with_default_factory "created_at" datetime_validate now_utc d rid.2 in
    let ru :=
      with_default_factory "updated_at" datetime_validate now_utc d rc.2 in
    (fmap_result (λ a, MkModel a (fields_set CourseRead.declared d))
       (Ok CourseRead.mk <&> CourseBase.fields d <&> rid.1 <&> rc.1
          <&> ru.1),
     ru.2).
Proof.
  unfold CourseRead.validate.
  destruct (with_default_factory "id" _ _ d w) as [rid w1]; simpl.
  destruct (with_default_factory "created_at" _ _ d w1) as [rc w2]; simpl.
  by destruct (with_default_factory "updated_at" _ _ d w2) as [ru w3].
Qed.

Lemma DepartmentRead_validate_eq (d : gmap string pyval) (w : world) :
  DepartmentRead.validate d w
  = let rid := with_default_factory "id" UUID_validate uuid4 d w in
    let rc :=
      with_default_factory "created_at" datetime_validate now_utc d rid.2 in
    let ru :=
      with_default_factory "updated_at" datetime_validate now_utc d rc.2 in
    (fmap_result (λ a, MkModel a (fields_set DepartmentRead.declared d))
       (Ok DepartmentRead.mk <&> DepartmentBase.fields d <&> rid.1 <&> rc.1
          <&> ru.1),
     ru.2).
Proof.
  unfold DepartmentRead.validate.
  destruct (with_default_factory "id" _ _ d w) as [rid w1]; simpl.
  destruct (with_default_factory "created_at" _ _ d w1) as [rc w2]; simpl.
  by destruct (with_default_factory "updated_at" _ _ d w2) as [ru w3].
Qed.

(** Without the three keys the identifier is drawn and the clock read
    twice, whatever the payload holds. *)
Lemma CourseRead_generates (d : gmap string pyval) (w : world) :
  server_fields_absent d →
  CourseRead.validate d w
  = (fmap_result (CourseRead_generated w d) (CourseBase.fields d),
     after_generation w).
Proof.
  intros (Hid & Hc & Hu). rewrite CourseRead_validate_eq. cbv zeta.
  rewrite (with_default_factory_absent "id") by done. simpl.
  rewrite (with_default_factory_absent "created_at") by done. simpl.
  rewrite (with_default_factory_absent "updated_at") by done. simpl.
  by destruct (CourseBase.fields d).
Qed.

Lemma DepartmentRead_generates (d : gmap string pyval) (w : world) :
  server_fields_absent d →
  DepartmentRead.validate d w
  = (fmap_result (DepartmentRead_generated w d) (DepartmentBase.fields d),
     after_generation w).
Proof.
  intros (Hid & Hc & Hu). rewrite DepartmentRead_validate_eq. cbv zeta.
  rewrite (with_default_factory_absent "id") by done. simpl.
  rewrite (with_default_factory_absent "created_at") by done. simpl.
  rewrite (with_default_factory_absent "updated_at") by done. simpl.
  by destruct (DepartmentBase.fields d).
Qed.

(** A supplied identifier or timestamp is the one of the instance. *)
Lemma CourseRead_uses_supplied (d : gmap string pyval) (w : world)
    (u : UUID) (t : datetime) :
  let with_id := (CourseRead.validate (<["id" := VUUID u]> d) w).1 in
  let with_created :=
    (CourseRead.validate (<["created_at" := VDatetime t]> d) w).1 in
  let with_updated :=
    (CourseRead.validate (<["updated_at" := VDatetime t]> d) w).1 in
  fmap_result (CourseRead.id ∘ data) with_id
  = fmap_result (λ _, u) with_id
  ∧ fmap_result (CourseRead.created_at ∘ data) with_created
    = fmap_result (λ _, t) with_created
  ∧ fmap_result (CourseRead.updated_at ∘ data) with_updated
    = fmap_result (λ _, t) with_updated.
Proof.
  simpl. rewrite !CourseRead_validate_eq. simpl.
  split_and!.
  - rewrite with_default_factory_insert. simpl.
    destruct (CourseBase.fields _),
      (with_default_factory "created_at" _ _ _ _) as [[?|?] w2]; simpl;
      destruct (with_default_factory "updated_at" _ _ _ _) as [[?|?] w3];
      done.
  - destruct (with_default_factory "id" _ _ _ _) as [rid w1]; simpl.
    rewrite with_default_factory_insert. simpl.
    destruct (CourseBase.fields _), rid; simpl;
      destruct (with_default_factory "updated_at" _ _ _ _) as [[?|?] w3];
      done.
  - destruct (with_default_factory "id" _ _ _ _) as [rid w1]; simpl.
    destruct (with_default_factory "created_at" _ _ _ _) as [rc w2]; simpl.
    rewrite with_default_factory_insert. simpl.
    by destruct (CourseBase.fields _), rid, rc.
Qed.

Lemma DepartmentRead_uses_supplied (d : gmap string pyval) (w : world)
    (u : UUID) (t : datetime) :
  let with_id := (DepartmentRead.validate (<["id" := VUUID u]> d) w).1 in
  let with_created :=
    (DepartmentRead.validate (<["created_at" := VDatetime t]> d) w).1 in
  let with_updated :=
    (DepartmentRead.validate (<["updated_at" := VDatetime t]> d) w).1 in
  fmap_result (DepartmentRead.id ∘ data) with_id
  = fmap_result (λ _, u) with_id
  ∧ fmap_result (DepartmentRead.created_at ∘ data) with_created
    = fmap_result (λ _, t) with_created
  ∧ fmap_result (DepartmentRead.updated_at ∘ data) with_updated
    = fmap_result (λ _, t) with_updated.
Proof.
  simpl. rewrite !DepartmentRead_validate_eq. simpl.
  split_and!.
  - rewrite with_default_factory_insert. simpl.
    destruct (DepartmentBase.fields _),
      (with_default_factory "created_at" _ _ _ _) as [[?|?] w2]; simpl;
      destruct (with_default_factory "updated_at" _ _ _ _) as [[?|?] w3];
      done.
  - destruct (with_default_factory "id" _ _ _ _) as [rid w1]; simpl.
    rewrite with_default_factory_insert. simpl.
    destruct (DepartmentBase.fields _), rid; simpl;
      destruct (with_default_factory "updated_at" _ _ _ _) as [[?|?] w3];
      done.
  - destruct (with_default_factory "id" _ _ _ _) as [rid w1]; simpl.
    destruct (with_default_factory "created_at" _ _ _ _) as [rc w2]; simpl.
    rewrite with_default_factory_insert. simpl.
    by destruct (DepartmentBase.fields _), rid, rc.
Qed.
End server_fields.

(** C5, as the code has it.  [id], [created_at] and [updated_at] are
    fields with a default factory.  When the payload supplies none of
    them, the identifier is the generator's next one and the timestamps
    are the next two readings of the clock, whatever else the payload
    holds.  A value the payload supplies for one of them is validated and
    is the value of the instance. *)
Theorem C5_server_fields_default_to_generated (D : Deps)
    (d : gmap string pyval) (w : world) (u : UUID) (t : datetime) :
  (server_fields_absent d →
     CourseRead.validate d w
     = (fmap_result (CourseRead_generated w d) (CourseBase.fields d),
        after_generation w)
     ∧ DepartmentRead.validate d w
       = (fmap_result (DepartmentRead_generated w d)
            (DepartmentBase.fields d),
          after_generation w))
  ∧ (let with_id := (CourseRead.validate (<["id" := VUUID u]> d) w).1 in
     let with_created :=
       (CourseRead.validate (<["created_at" := VDatetime t]> d) w).1 in
     let with_updated :=
       (CourseRead.validate (<["updated_at" := VDatetime t]> d) w).1 in
     fmap_result (CourseRead.id ∘ data) with_id
     = fmap_result (λ _, u) with_id
     ∧ fmap_result (CourseRead.created_at ∘ data) with_created
       = fmap_result (λ _, t) with_created
     ∧ fmap_result (CourseRead.updated_at ∘ data) with_updated
       = fmap_result (λ _, t) with_updated)
  ∧ (let with_id := (DepartmentRead.validate (<["id" := VUUID u]> d) w).1 in
     let with_created :=
       (DepartmentRead.validate (<["created_at" := VDatetime t]> d) w).1 in
     let with_updated :=
       (DepartmentRead.validate (<["updated_at" := VDatetime t]> d) w).1 in
     fmap_result (DepartmentRead.id ∘ data) with_id
     = fmap_result (λ _, u) with_id
     ∧ fmap_result (DepartmentRead.created_at ∘ data) with_created
       = fmap_result (λ _, t) with_created
     ∧ fmap_result (DepartmentRead.updated_at ∘ data) with_updated
       = fmap_result (λ _, t) with_updated).
Proof.
  split_and!.
  - intros Habsent. split.
    + by apply CourseRead_generates.
    + by apply DepartmentRead_generates.
  - apply CourseRead_uses_supplied.
  - apply DepartmentRead_uses_supplied.
Qed.

(** The course of the creation scenario, read in the ticking world. *)
Lemma C5_server_fields_default_to_generated_witness :
  CourseRead.validate (D:=SpecDeps) cloud_computing ticking
  = (Ok (MkModel
           (CourseRead.mk cloud_computing_record 1000%N 1736936430000000
              1736936430000001)
           (list_to_set CourseBase.declared)),
     after_generation ticking).
Proof.
  destruct (C5_server_fields_default_to_generated SpecDeps cloud_computing
              ticking 0%N 0) as [Hgenerated _].
  destruct Hgenerated as [-> _]; [by vm_compute|].
  reflexivity.
Defined.

(** C5, as stated, fails: with the same generator and clock, the
    identifier and the creation time of a [CourseRead] are the ones its
    payload supplies. *)
Lemma C5_supplied_server_fields_are_used :
  fmap_result (CourseRead.id ∘ data)
    (CourseRead.validate (D:=SpecDeps)
       (<["id" := VUUID 1%N]> cloud_computing) ticking).1 = Ok 1%N
  ∧ fmap_result (CourseRead.id ∘ data)
      (CourseRead.validate (D:=SpecDeps)
         (<["id" := VUUID 2%N]> cloud_computing) ticking).1 = Ok 2%N
  ∧ fmap_result (CourseRead.created_at ∘ data)
      (CourseRead.validate (D:=SpecDeps)
         (<["created_at" := VDatetime 7]> cloud_computing) ticking).1 = Ok 7.
Proof. by vm_compute. Qed.

(** ** All the errors of a record *)

Section all_errors.
Context {D : Deps}.

Lemma CourseCreate_errors (d : gmap string pyval) :
  errors (CourseCreate.validate d)
  = errors (required "course_number" CourseNumberType d)
    ++ errors (required "name" str_validate d)
    ++ errors (required "professor_uni" UNIType d)
    ++ errors (required "credits" int_validate d)
    ++ errors (required "strength" int_validate d).
Proof.
  unfold CourseCreate.validate, model_validate, CourseBase.fields.
  rewrite errors_fmap_result, !errors_ap. simpl.
  by rewrite <- !app_assoc.
Qed.

Lemma CourseCreate_is_ok (d : gmap string pyval) :
  is_ok (CourseCreate.validate d)
  = is_ok (required "course_number" CourseNumberType d)
    && is_ok (required "name" str_validate d)
    && is_ok (required "professor_uni" UNIType d)
    && is_ok (required "credits" int_validate d)
    && is_ok (required "strength" int_validate d).
Proof.
  unfold CourseCreate.validate, model_validate, CourseBase.fields.
  by rewrite is_ok_fmap_result, !is_ok_ap.
Qed.
End all_errors.

(** C6, as the code has it.  [CourseCreate] reports the line errors of
    all five fields, in declaration order, and yields an instance only
    when each of the five fields is accepted.  For the malformed course of
    the scenario the errors are the three on [course_number],
    [professor_uni] and [credits]; the empty [name] is accepted. *)
Theorem C6_all_field_errors_are_collected (D : Deps)
    (d : gmap string pyval) :
  errors (CourseCreate.validate d)
  = errors (required "course_number" CourseNumberType d)
    ++ errors (required "name" str_validate d)
    ++ errors (required "professor_uni" UNIType d)
    ++ errors (required "credits" int_validate d)
    ++ errors (required "strength" int_validate d)
  ∧ is_ok (CourseCreate.validate d)
    = is_ok (required "course_number" CourseNumberType d)
      && is_ok (required "name" str_validate d)
      && is_ok (required "professor_uni" UNIType d)
      && is_ok (required "credits" int_validate d)
      && is_ok (required "strength" int_validate d)
  ∧ CourseCreate.validate (D:=SpecDeps) malformed_course
    = Err [LineError [Key "course_number"] string_pattern_mismatch;
           LineError [Key "professor_uni"] string_pattern_mismatch;
           LineError [Key "credits"] int_parsing].
Proof.
  split_and!.
  - apply CourseCreate_errors.
  - apply CourseCreate_is_ok.
  - by vm_compute.
Qed.

(** C6, as stated, fails: the scenario's payload yields three field
    errors, none of them on [name]. *)
Lemma C6_scenario_has_three_errors :
  length (errors (CourseCreate.validate (D:=SpecDeps) malformed_course))
  = 3%nat
  ∧ field_errors "name"
      (CourseCreate.validate (D:=SpecDeps) malformed_course) = [].
Proof. by vm_compute. Qed.

(** ** The courses of a department *)

Section courses_list.
Context {D : Deps}.

Lemma errors_sequence {A} (rs : list (result A)) :
  errors (sequence rs) = mjoin (errors <$> rs).
Proof.
  induction rs as [|r rs IH]; [done|].
  change (sequence (r :: rs)) with (Ok cons <&> r <&> sequence rs).
  by rewrite !errors_ap, IH.
Qed.

Lemma is_ok_sequence {A} (rs : list (result A)) (r : result A) :
  is_ok (sequence rs) = true → r ∈ rs → is_ok r = true.
Proof.
  induction rs as [|r' rs IH].
  - by intros _ ?%elem_of_nil.
  - change (sequence (r' :: rs)) with (Ok cons <&> r' <&> sequence rs).
    rewrite !is_ok_ap. simpl.
    intros [Hr' Hrs]%andb_prop [->|Hr]%elem_of_cons; auto.
Qed.

Lemma elem_of_under (i j : loc_item) (lc : list loc_item) (ty : error_type)
    (es : list line_error) :
  LineError (i :: lc) ty ∈ under j <$> es ↔ i = j ∧ LineError lc ty ∈ es.
Proof.
  rewrite list_elem_of_fmap. split.
  - intros ([lc' ty'] & [= -> -> ->] & He). done.
  - intros [-> He]. by exists (LineError lc ty).
Qed.

(** The errors of [List[T]] are those of its elements, each below the
    index of its element. *)
Lemma elem_of_errors_List_of {A} (T : pyval → result A) (l : list pyval)
    (i : nat) (v : pyval) (lc : list loc_item) (ty : error_type) :
  l !! i = Some v →
  LineError (Idx i :: lc) ty ∈ errors (List_of T (VList l))
  ↔ LineError lc ty ∈ errors (T v).
Proof.
  intros Hv. simpl. rewrite errors_sequence, list_elem_of_join. split.
  - intros (es & He & Hes).
    apply list_elem_of_fmap in Hes as (r & -> & Hr).
    apply elem_of_lookup_imap in Hr as (j & x & -> & Hx).
    rewrite errors_at_loc in He.
    apply elem_of_under in He as [[= ->] He]. congruence.
  - intros He. exists (under (Idx i) <$> errors (T v)). split.
    + by apply elem_of_under.
    + apply list_elem_of_fmap. exists (at_loc (Idx i) (T v)).
      split; [by rewrite errors_at_loc|].
      by apply (elem_of_lookup_imap_2 (λ i x, at_loc (Idx i) (T x))).
Qed.

Lemma is_ok_List_of {A} (T : pyval → result A) (l : list pyval)
    (i : nat) (v : pyval) :
  l !! i = Some v → is_ok (T v) = false →
  is_ok (List_of T (VList l)) = false.
Proof.
  intros Hv Hfail. simpl.
  destruct (is_ok (sequence _)) eqn:Hall; [|done].
  apply (is_ok_sequence _ (at_loc (Idx i) (T v))) in Hall.
  - by rewrite is_ok_at_loc, Hfail in Hall.
  - by apply (elem_of_lookup_imap_2 (λ i x, at_loc (Idx i) (T x))).
Qed.

Lemma elem_of_field_errors {A} (f : string) (r : result A)
    (lc : list loc_item) (ty : error_type) :
  LineError (Key f :: lc) ty ∈ field_errors f r
  ↔ LineError (Key f :: lc) ty ∈ errors r.
Proof.
  rewrite field_errors_eq, list_elem_of_filter.
  unfold on_field. simpl. rewrite bool_decide_eq_true_2 by done. tauto.
Qed.

Lemma DepartmentCreate_courses_list_errors (d : gmap string pyval) :
  field_errors "courses_list" (DepartmentCreate.validate d)
  = errors (required "courses_list" (List_of (nested CourseBase.fields)) d).
Proof.
  unfold DepartmentCreate.validate, model_validate, DepartmentBase.fields.
  by by_field.
Qed.

Lemma DepartmentCreate_is_ok (d : gmap string pyval) :
  is_ok (DepartmentCreate.validate d)
  = is_ok (required "department_code" str_validate d)
    && is_ok (required "name" str_validate d)
    && is_ok (required "head_of_department" UNIType d)
    && is_ok (required "courses_list" (List_of (nested CourseBase.fields)) d)
    && is_ok (required "email" EmailStr d).
Proof.
  unfold DepartmentCreate.validate, model_validate, DepartmentBase.fields.
  by rewrite is_ok_fmap_result, !is_ok_ap.
Qed.
End courses_list.

(** C7.  Every element of [courses_list] is run through the fields of
    [CourseBase] on its own: the line errors of the department below
    [courses_list[i]] are exactly the line errors of element [i], and a
    department with an element that fails yields no instance. *)
Theorem C7_course_elements_report_by_index (D : Deps)
    (d : gmap string pyval) (l : list pyval) (i : nat) (v : pyval) :
  d !! "courses_list" = Some (VList l) → l !! i = Some v →
  (∀ lc ty,
     LineError (Key "courses_list" :: Idx i :: lc) ty
       ∈ errors (DepartmentCreate.validate d)
     ↔ LineError lc ty ∈ errors (nested CourseBase.fields v))
  ∧ (is_ok (nested CourseBase.fields v) = false →
     is_ok (DepartmentCreate.validate d) = false).
Proof.
  intros Hd Hv. split.
  - intros lc ty.
    rewrite <- elem_of_field_errors, DepartmentCreate_courses_list_errors.
    unfold required. rewrite Hd, errors_at_loc, elem_of_under.
    rewrite (elem_of_errors_List_of _ l i v) by done. tauto.
  - intros Hfail. rewrite DepartmentCreate_is_ok.
    unfold required at 4. rewrite Hd, is_ok_at_loc.
    rewrite (is_ok_List_of _ l i v) by done.
    by rewrite andb_false_r.
Qed.

(** The department whose second course is malformed reports it at
    [courses_list[1].course_number]. *)
Lemma C7_course_elements_report_by_index_witness :
  LineError [Key "courses_list"; Idx 1; Key "course_number"]
    string_pattern_mismatch
    ∈ errors (DepartmentCreate.validate (D:=SpecDeps)
                department_with_bad_course)
  ∧ is_ok (DepartmentCreate.validate (D:=SpecDeps)
             department_with_bad_course) = false.
Proof.
  destruct (C7_course_elements_report_by_index SpecDeps
              department_with_bad_course
              [VDict marketing_analytics;
               VDict (<["course_number" := VStr "ieor4123"]>
                        marketing_analytics)]
              1
              (VDict (<["course_number" := VStr "ieor4123"]>
                        marketing_analytics))
              eq_refl eq_refl) as [Herrors Hinvalid].
  split.
  - apply Herrors. vm_compute. apply list_elem_of_here.
  - apply Hinvalid. by vm_compute.
Defined.

(** ** The address of a department *)

Section email.
Context {D : Deps}.

(** The [email] field reports what [EmailStr] makes of the string. *)
Lemma DepartmentCreate_email_errors (d : gmap string pyval) (s : string) :
  field_errors "email" (DepartmentCreate.validate (<["email" := VStr s]> d))
  = match EmailStr_parse s with
    | Some _ => []
    | None => [LineError [Key "email"] value_error]
    end.
Proof.
  unfold DepartmentCreate.validate, model_validate, DepartmentBase.fields.
  by_field. rewrite required_insert. simpl.
  by destruct (EmailStr_parse s).
Qed.
End email.

Lemma split_at_inv (c : ascii) (s l r : string) :
  split_at c s = Some (l, r) → s = (l +:+ String c r) ∧ contains c l = false.
Proof.
  revert l. induction s as [|c' s IH]; intros l; simpl; [done|].
  case_bool_decide as Hc.
  - intros [= <- <-]. by subst.
  - destruct (split_at c s) as [[l' r']|]; simpl; [|done].
    intros [= <- <-]. destruct (IH l' eq_refl) as [-> Hl'].
    simpl. by rewrite bool_decide_eq_false_2.
Qed.

Lemma split_at_intro (c : ascii) (l r : string) :
  contains c l = false → split_at c (l +:+ String c r) = Some (l, r).
Proof.
  induction l as [|c' l IH]; simpl.
  - by rewrite bool_decide_eq_true_2.
  - case_bool_decide; simpl; [done|]. intros Hl. by rewrite IH.
Qed.

Lemma split_at_Some (c : ascii) (s l r : string) :
  split_at c s = Some (l, r) ↔ s = (l +:+ String c r) ∧ contains c l = false.
Proof.
  split; [apply split_at_inv|]. intros [-> Hl]. by apply split_at_intro.
Qed.

(** The grammar modelled for [EmailStr] accepts exactly the strings with
    a non-empty local part, one [@] and a dot in the domain, and returns
    them unchanged. *)
Lemma EmailStr_parse_spec_shape (s : string) :
  (is_Some (EmailStr_parse_spec s) ↔ email_shape s)
  ∧ ∀ e, EmailStr_parse_spec s = Some e → e = s.
Proof.
  unfold EmailStr_parse_spec, email_shape. split.
  - destruct (split_at "@" s) as [[local domain]|] eqn:Hsplit.
    + apply split_at_Some in Hsplit as [-> Hlocal].
      split.
      * intros Hsome. exists local, domain.
        destruct (bool_decide (local = "")) eqn:Hempty; simpl in Hsome;
          [by destruct Hsome|].
        apply bool_decide_eq_false in Hempty.
        destruct (contains "@" domain); simpl in Hsome; [by destruct Hsome|].
        destruct (contains "." domain); simpl in Hsome; [|by destruct Hsome].
        done.
      * intros (local' & domain' & Hs & Hne & Hl' & Hd' & Hdot).
        assert (Some (local, domain) = Some (local', domain'))
          as [= -> ->].
        { rewrite <- (split_at_intro "@" local domain) by done.
          rewrite Hs. by apply split_at_intro. }
        rewrite bool_decide_eq_false_2, Hd', Hdot by done. simpl. eauto.
    + split; [by intros [? ?]|].
      intros (local' & domain' & -> & Hne & Hl' & Hd' & Hdot).
      assert (split_at "@" (local' +:+ String "@" domain')
              = Some (local', domain')) as Heq by (by apply split_at_Some).
      by rewrite Heq in Hsplit.
  - intros e. destruct (split_at "@" s) as [[local domain]|]; [|done].
    destruct (_ && _); [|done]. by intros [= <-].
Qed.

(** ** Timestamps *)

Section timestamps.
Context {D : Deps}.

(** Validating or generating the identifier leaves the clock alone. *)
Lemma id_keeps_clock (d : gmap string pyval) (w : world) :
  let w1 := (with_default_factory "id" UUID_validate uuid4 d w).2 in
  clock w1 = clock w ∧ ticks w1 = ticks w.
Proof. unfold with_default_factory. by destruct (d !! "id"). Qed.

(** The generated timestamps are two successive readings of the clock,
    [created_at] the first. *)
Lemma CourseRead_generated_timestamps (d : gmap string pyval) (w w' : world)
    (r : Model CourseRead.t) :
  d !! "created_at" = None → d !! "updated_at" = None →
  CourseRead.validate d w = (Ok r, w') →
  CourseRead.created_at (data r) = clock w (ticks w)
  ∧ CourseRead.updated_at (data r) = clock w (S (ticks w)).
Proof.
  intros Hc Hu. rewrite CourseRead_validate_eq. cbv zeta.
  destruct (id_keeps_clock d w) as [Hsame Hticks].
  destruct (with_default_factory "id" _ _ d w) as [rid w1].
  simpl in Hsame, Hticks |- *.
  rewrite (with_default_factory_absent "created_at") by done. simpl.
  rewrite (with_default_factory_absent "updated_at") by done. simpl.
  destruct (CourseBase.fields d), rid; simpl; intros [= <- _]. simpl.
  by rewrite Hsame, Hticks.
Qed.

Lemma DepartmentRead_generated_timestamps (d : gmap string pyval)
    (w w' : world) (r : Model DepartmentRead.t) :
  d !! "created_at" = None → d !! "updated_at" = None →
  DepartmentRead.validate d w = (Ok r, w') →
  DepartmentRead.created_at (data r) = clock w (ticks w)
  ∧ DepartmentRead.updated_at (data r) = clock w (S (ticks w)).
Proof.
  intros Hc Hu. rewrite DepartmentRead_validate_eq. cbv zeta.
  destruct (id_keeps_clock d w) as [Hsame Hticks].
  destruct (with_default_factory "id" _ _ d w) as [rid w1].
  simpl in Hsame, Hticks |- *.
  rewrite (with_default_factory_absent "created_at") by done. simpl.
  rewrite (with_default_factory_absent "updated_at") by done. simpl.
  destruct (DepartmentBase.fields d), rid; simpl; intros [= <- _]. simpl.
  by rewrite Hsame, Hticks.
Qed.

Lemma with_default_factory_present {A} (name : string)
    (T : pyval → result A) (factory : world → A * world) (v : pyval)
    (d : gmap string pyval) (w : world) :
  d !! name = Some v →
  with_default_factory name T factory d w = (at_loc (Key name) (T v), w).
Proof. intros Hd. unfold with_default_factory. by rewrite Hd. Qed.

Lemma CourseRead_model_dump_lookup (r : CourseRead.t) :
  CourseRead.model_dump r !! "id" = Some (VUUID (CourseRead.id r))
  ∧ CourseRead.model_dump r !! "created_at"
    = Some (VDatetime (CourseRead.created_at r))
  ∧ CourseRead.model_dump r !! "updated_at"
    = Some (VDatetime (CourseRead.updated_at r)).
Proof.
  by vm_compute.
Qed.

Lemma DepartmentRead_model_dump_lookup (r : DepartmentRead.t) :
  DepartmentRead.model_dump r !! "id" = Some (VUUID (DepartmentRead.id r))
  ∧ DepartmentRead.model_dump r !! "created_at"
    = Some (VDatetime (DepartmentRead.created_at r))
  ∧ DepartmentRead.model_dump r !! "updated_at"
    = Some (VDatetime (DepartmentRead.updated_at r)).
Proof.
  by vm_compute.
Qed.

(** Building a read instance from the dump of one neither draws an
    identifier nor reads the clock. *)
Lemma CourseRead_validate_model_dump (r : CourseRead.t) (w : world) :
  CourseRead.validate (CourseRead.model_dump r) w
  = (fmap_result
       (λ b, MkModel
               (CourseRead.mk b (CourseRead.id r) (CourseRead.created_at r)
                  (CourseRead.updated_at r))
               (fields_set CourseRead.declared (CourseRead.model_dump r)))
       (CourseBase.fields (CourseRead.model_dump r)),
     w).
Proof.
  destruct (CourseRead_model_dump_lookup r) as (Hid & Hc & Hu).
  rewrite CourseRead_validate_eq. cbv zeta.
  rewrite (with_default_factory_present "id" _ _ _ _ _ Hid). simpl.
  rewrite (with_default_factory_present "created_at" _ _ _ _ _ Hc). simpl.
  rewrite (with_default_factory_present "updated_at" _ _ _ _ _ Hu). simpl.
  by destruct (CourseBase.fields _).
Qed.

Lemma DepartmentRead_validate_model_dump (r : DepartmentRead.t)
    (w : world) :
  DepartmentRead.validate (DepartmentRead.model_dump r) w
  = (fmap_result
       (λ b, MkModel
               (DepartmentRead.mk b (DepartmentRead.id r)
                  (DepartmentRead.created_at r)
                  (DepartmentRead.updated_at r))
               (fields_set DepartmentRead.declared
                  (DepartmentRead.model_dump r)))
       (DepartmentBase.fields (DepartmentRead.model_dump r)),
     w).
Proof.
  destruct (DepartmentRead_model_dump_lookup r) as (Hid & Hc & Hu).
  rewrite DepartmentRead_validate_eq. cbv zeta.
  rewrite (with_default_factory_present "id" _ _ _ _ _ Hid). simpl.
  rewrite (with_default_factory_present "created_at" _ _ _ _ _ Hc). simpl.
  rewrite (with_default_factory_present "updated_at" _ _ _ _ _ Hu). simpl.
  by destruct (DepartmentBase.fields _).
Qed.

Lemma constrained_str_Ok (pattern : string → bool) (v : pyval)
    (s : string) :
  constrained_str pattern v = Ok s → v = VStr s ∧ pattern s = true.
Proof.
  destruct v; try done. simpl. destruct (pattern s0) eqn:Hp; [|done].
  by intros [= <-].
Qed.

Lemma CourseBase_model_dump_lookup (b : CourseBase.t) :
  CourseBase.model_dump b !! "course_number"
  = Some (VStr (CourseBase.course_number b))
  ∧ CourseBase.model_dump b !! "name" = Some (VStr (CourseBase.name b))
  ∧ CourseBase.model_dump b !! "professor_uni"
    = Some (VStr (CourseBase.professor_uni b))
  ∧ CourseBase.model_dump b !! "credits"
    = Some (VInt (CourseBase.credits b))
  ∧ CourseBase.model_dump b !! "strength"
    = Some (VInt (CourseBase.strength b)).
Proof. by vm_compute. Qed.

(** The fields of a validated course validate again from its dump. *)
Lemma CourseBase_fields_model_dump (d : gmap string pyval)
    (b : CourseBase.t) :
  CourseBase.fields d = Ok b →
  CourseBase.fields (CourseBase.model_dump b) = Ok b.
Proof.
  intros (Hcn & _ & Hprof & _)%CourseBase_fields_Ok.
  apply required_Ok_lookup in Hcn as (? & _ & [_ Hcn]%constrained_str_Ok).
  apply required_Ok_lookup in Hprof as (? & _ & [_ Hp]%constrained_str_Ok).
  destruct (CourseBase_model_dump_lookup b) as (H1 & H2 & H3 & H4 & H5).
  apply CourseBase_fields_Ok. unfold required.
  rewrite H1, H2, H3, H4, H5. simpl.
  by rewrite Hcn, Hp.
Qed.

Lemma fields_set_all (declared : list string) (d : gmap string pyval) :
  Forall (λ k, is_Some (d !! k)) declared →
  fields_set declared d = list_to_set declared.
Proof.
  intros Hall. unfold fields_set. f_equal.
  induction Hall as [|k ks Hk _ IH]; [done|].
  by rewrite filter_cons, decide_True, IH.
Qed.

Lemma CourseRead_model_dump_fields (r : CourseRead.t) :
  CourseBase.fields (CourseRead.model_dump r)
  = CourseBase.fields (CourseBase.model_dump (CourseRead.base r)).
Proof.
  unfold CourseRead.model_dump.
  by rewrite !CourseBase_fields_insert_ne by compute_done.
Qed.

Lemma CourseRead_model_dump_fields_set (r : CourseRead.t) :
  fields_set CourseRead.declared (CourseRead.model_dump r)
  = list_to_set CourseRead.declared.
Proof.
  apply fields_set_all. unfold CourseRead.declared, CourseBase.declared.
  simpl. repeat (apply Forall_cons_2; [vm_compute; eauto|]).
  apply Forall_nil_2.
Qed.

Lemma CourseRead_validate_Ok (d : gmap string pyval) (w w' : world)
    (r : Model CourseRead.t) :
  CourseRead.validate d w = (Ok r, w') →
  CourseBase.fields d = Ok (CourseRead.base (data r)).
Proof.
  rewrite CourseRead_validate_eq. cbv zeta.
  destruct (with_default_factory "id" _ _ d w) as [rid w1]; simpl.
  destruct (with_default_factory "created_at" _ _ d w1) as [rc w2]; simpl.
  destruct (with_default_factory "updated_at" _ _ d w2) as [ru w3]; simpl.
  destruct (CourseBase.fields d), rid, rc, ru; simpl; by intros [= <- _].
Qed.

(** A course instance built once is built again, unchanged, from its
    dump, in any world. *)
Lemma CourseRead_validates_again (d : gmap string pyval) (w w' : world)
    (r : Model CourseRead.t) (w2 : world) :
  CourseRead.validate d w = (Ok r, w') →
  CourseRead.validate (CourseRead.model_dump (data r)) w2
  = (Ok (MkModel (data r) (list_to_set CourseRead.declared)), w2).
Proof.
  intros Hb%CourseRead_validate_Ok.
  apply CourseBase_fields_model_dump in Hb.
  rewrite CourseRead_validate_model_dump, CourseRead_model_dump_fields, Hb.
  simpl. rewrite CourseRead_model_dump_fields_set. by destruct (data r).
Qed.

Lemma DepartmentRead_keeps_dumped (r : DepartmentRead.t) (w : world) :
  let again := DepartmentRead.validate (DepartmentRead.model_dump r) w in
  again.2 = w
  ∧ fmap_result (DepartmentRead.created_at ∘ data) again.1
    = fmap_result (λ _, DepartmentRead.created_at r) again.1.
Proof.
  simpl. rewrite DepartmentRead_validate_model_dump. simpl.
  split; [done|]. by destruct (DepartmentBase.fields _).
Qed.
End timestamps.

(** C10.  A key that a creation or update model does not declare is not
    looked at: adding it to a payload, with any value, changes neither the
    errors nor the instance. *)
Theorem C10_undeclared_keys_are_ignored (D : Deps) (d : gmap string pyval)
    (k : string) (v : pyval) :
  (k ∉ CourseCreate.declared →
     CourseCreate.validate (<[k := v]> d) = CourseCreate.validate d)
  ∧ (k ∉ CourseUpdate.declared →
       CourseUpdate.validate (<[k := v]> d) = CourseUpdate.validate d)
  ∧ (k ∉ DepartmentCreate.declared →
       DepartmentCreate.validate (<[k := v]> d) = DepartmentCreate.validate d)
  ∧ (k ∉ DepartmentUpdate.declared →
       DepartmentUpdate.validate (<[k := v]> d)
       = DepartmentUpdate.validate d).
Proof.
  split_and!; intros Hk; apply model_validate_insert_ne; try done.
  - by apply CourseBase_fields_insert_ne.
  - by apply CourseUpdate_fields_insert_ne.
  - by apply DepartmentBase_fields_insert_ne.
  - by apply DepartmentUpdate_fields_insert_ne.
Qed.

(** A [semester] key on a course and an [email] key on a course
    update. *)
Lemma C10_undeclared_keys_are_ignored_witness :
  CourseCreate.validate (D:=SpecDeps)
    (<["semester" := VStr "Fall"]> cloud_computing)
  = CourseCreate.validate (D:=SpecDeps) cloud_computing
  ∧ CourseUpdate.validate (D:=SpecDeps)
      (<["email" := VInt 7]> new_professor)
    = CourseUpdate.validate (D:=SpecDeps) new_professor.
Proof.
  destruct (C10_undeclared_keys_are_ignored SpecDeps cloud_computing
              "semester" (VStr "Fall")) as (Hcreate & _).
  destruct (C10_undeclared_keys_are_ignored SpecDeps new_professor
              "email" (VInt 7)) as (_ & Hupdate & _).
  split.
  - apply Hcreate. compute_done.
  - apply Hupdate. compute_done.
Defined.

(** * Further properties of the models *)

(** ** Required keys *)

Section required_keys.
Context {D : Deps}.

Lemma CourseCreate_missing (d : gmap string pyval) (f : string) :
  f ∈ CourseCreate.declared → d !! f = None →
  field_errors f (CourseCreate.validate d) = [LineError [Key f] missing].
Proof.
  intros Hf Hd. unfold CourseCreate.declared, CourseBase.declared in Hf.
  unfold CourseCreate.validate, model_validate, CourseBase.fields.
  repeat (apply elem_of_cons in Hf as [->|Hf]);
    [..|by apply elem_of_nil in Hf];
    by_field; unfold required; by rewrite Hd.
Qed.

Lemma DepartmentCreate_missing (d : gmap string pyval) (f : string) :
  f ∈ DepartmentCreate.declared → d !! f = None →
  field_errors f (DepartmentCreate.validate d) = [LineError [Key f] missing].
Proof.
  intros Hf Hd.
  unfold DepartmentCreate.declared, DepartmentBase.declared in Hf.
  unfold DepartmentCreate.validate, model_validate, DepartmentBase.fields.
  repeat (apply elem_of_cons in Hf as [->|Hf]);
    [..|by apply elem_of_nil in Hf];
    by_field; unfold required; by rewrite Hd.
Qed.
End required_keys.

(** X1.  A payload that lacks a key declared with [Field(...)] is
    refused, with exactly one line error for that field, of type
    [missing]: every field of [CourseCreate] and of [DepartmentCreate],
    and [professor_uni] of [CourseUpdate]. *)
Theorem missing_required_key_is_reported (D : Deps) (d : gmap string pyval)
    (f : string) :
  d !! f = None →
  (f ∈ CourseCreate.declared →
     field_errors f (CourseCreate.validate d) = [LineError [Key f] missing]
     ∧ is_ok (CourseCreate.validate d) = false)
  ∧ (f ∈ DepartmentCreate.declared →
       field_errors f (DepartmentCreate.validate d)
       = [LineError [Key f] missing]
       ∧ is_ok (DepartmentCreate.validate d) = false)
  ∧ (f = "professor_uni" →
       field_errors f (CourseUpdate.validate d) = [LineError [Key f] missing]
       ∧ is_ok (CourseUpdate.validate d) = false).
Proof.
  intros Hd. split_and!.
  - intros Hf. pose proof (CourseCreate_missing d f Hf Hd) as He.
    split; [done|]. apply (field_errors_not_ok f). by rewrite He.
  - intros Hf. pose proof (DepartmentCreate_missing d f Hf Hd) as He.
    split; [done|]. apply (field_errors_not_ok f). by rewrite He.
  - intros ->. pose proof (CourseUpdate_missing_professor_uni d Hd) as He.
    split; [done|]. apply (field_errors_not_ok "professor_uni").
    by rewrite He.
Qed.

(** A course without [credits] and an update without
    [professor_uni]. *)
Lemma missing_required_key_is_reported_witness :
  field_errors "credits"
    (CourseCreate.validate (D:=SpecDeps) course_without_credits)
  = [LineError [Key "credits"] missing]
  ∧ is_ok (CourseUpdate.validate (D:=SpecDeps) strength_only) = false.
Proof.
  destruct (missing_required_key_is_reported SpecDeps
              course_without_credits "credits" eq_refl)
    as (Hcourse & _).
  destruct (missing_required_key_is_reported SpecDeps strength_only
              "professor_uni" eq_refl) as (_ & _ & Hupdate).
  split.
  - apply Hcourse. compute_done.
  - by apply Hupdate.
Defined.

(** ** What a valid course holds *)

Section valid_course.
Context {D : Deps}.

Lemma str_validate_Ok (v : pyval) (s : string) :
  str_validate v = Ok s → v = VStr s.
Proof. destruct v; try done. by intros [= <-]. Qed.

Lemma CourseBase_fields_lookup (d : gmap string pyval) (b : CourseBase.t) :
  CourseBase.fields d = Ok b →
  d !! "course_number" = Some (VStr (CourseBase.course_number b))
  ∧ CourseNumberType_pattern (CourseBase.course_number b) = true
  ∧ d !! "name" = Some (VStr (CourseBase.name b))
  ∧ d !! "professor_uni" = Some (VStr (CourseBase.professor_uni b))
  ∧ UNIType_pattern (CourseBase.professor_uni b) = true
  ∧ is_Some (d !! "credits") ∧ is_Some (d !! "strength").
Proof.
  intros (Hcn & Hname & Hprof & Hcredits & Hstrength)%CourseBase_fields_Ok.
  apply required_Ok_lookup in Hcn as (? & ? & [-> ?]%constrained_str_Ok).
  apply required_Ok_lookup in Hname as (? & ? & ->%str_validate_Ok).
  apply required_Ok_lookup in Hprof as (? & ? & [-> ?]%constrained_str_Ok).
  apply required_Ok_lookup in Hcredits as (? & ? & _).
  apply required_Ok_lookup in Hstrength as (? & ? & _).
  split_and!; eauto.
Qed.

Lemma CourseCreate_fields_set (d : gmap string pyval) (b : CourseBase.t) :
  CourseBase.fields d = Ok b →
  fields_set CourseCreate.declared d = list_to_set CourseCreate.declared.
Proof.
  intros (Hcn & _ & Hname & Hprof & _ & Hcredits & Hstrength)
    %CourseBase_fields_lookup.
  apply fields_set_all.
  repeat (apply Forall_cons_2; [by eauto|]). apply Forall_nil_2.
Qed.
End valid_course.

(** X2.  Every instance of [CourseCreate] holds a course number that,
    when it is an ASCII string, is made of four uppercase letters, four
    digits [0-9] and one uppercase letter, and a professor that matches
    the pattern of [UNIType]; its three strings are the payload's strings,
    unchanged, and all five fields are in [model_fields_set]. *)
Theorem CourseCreate_instance_is_well_formed (D : Deps)
    (d : gmap string pyval) (m : Model CourseCreate.t) :
  CourseCreate.validate d = Ok m →
  (is_ascii (CourseBase.course_number (data m)) →
   CourseNumberType_pattern (CourseBase.course_number (data m)) = true)
  ∧ UNIType_pattern (CourseBase.professor_uni (data m)) = true
  ∧ d !! "course_number" = Some (VStr (CourseBase.course_number (data m)))
  ∧ d !! "name" = Some (VStr (CourseBase.name (data m)))
  ∧ d !! "professor_uni" = Some (VStr (CourseBase.professor_uni (data m)))
  ∧ model_fields_set m = list_to_set CourseCreate.declared.
Proof.
  intros [Hfields Hset]%model_validate_Ok.
  pose proof (CourseCreate_fields_set d _ Hfields) as Hall.
  apply CourseBase_fields_lookup in Hfields
    as (Hcn & Hpat & Hname & Hprof & Huni & _).
  split_and!; try done. by rewrite Hset.
Qed.

(** The course of the creation scenario. *)
Lemma CourseCreate_instance_is_well_formed_witness :
  CourseNumberType_pattern "COMS4153W" = true
  ∧ UNIType_pattern (Deps:=SpecDeps) "dj2390" = true.
Proof.
  destruct (CourseCreate_instance_is_well_formed SpecDeps cloud_computing
              (MkModel cloud_computing_record
                 (list_to_set CourseCreate.declared)))
    as (Hpat & Huni & _); [by vm_compute|].
  split; [|exact Huni].
  apply Hpat. unfold is_ascii. simpl.
  repeat (apply Forall_cons_2; [by vm_compute|]). apply Forall_nil_2.
Defined.

(** X3.  [CourseCreate], and a course given as an element of a
    department's [courses_list], accept a supplied course number that is
    an ASCII string exactly when it is made of four uppercase letters,
    four digits [0-9] and one uppercase letter; any other ASCII string
    gives one pattern error on [course_number]. *)
Theorem course_number_is_accepted_iff_shaped (D : Deps)
    (d : gmap string pyval) (s : string) :
  is_ascii s →
  let create := CourseCreate.validate (<["course_number" := VStr s]> d) in
  let element :=
    nested CourseBase.fields (VDict (<["course_number" := VStr s]> d)) in
  (field_errors "course_number" create = [] ↔ course_number_shape s)
  ∧ (field_errors "course_number" element = [] ↔ course_number_shape s)
  ∧ (field_errors "course_number" create = []
     ∨ field_errors "course_number" create
       = [LineError [Key "course_number"] string_pattern_mismatch]).
Proof.
  intros _. simpl. unfold CourseCreate.validate, model_validate.
  rewrite field_errors_fmap_result, CourseBase_course_number_checked.
  rewrite <- CourseNumberType_pattern_shape.
  destruct (CourseNumberType_pattern s); split_and!; try done; auto.
Qed.

(** The course number of the creation scenario. *)
Lemma course_number_is_accepted_iff_shaped_witness :
  course_number_shape "COMS4153W"
  ∧ ¬ course_number_shape "coms4153w".
Proof.
  split.
  - apply (course_number_is_accepted_iff_shaped SpecDeps cloud_computing
             "COMS4153W").
    + unfold is_ascii. simpl.
      repeat (apply Forall_cons_2; [by vm_compute|]). apply Forall_nil_2.
    + by vm_compute.
  - intros Hshape.
    apply (course_number_is_accepted_iff_shaped SpecDeps cloud_computing
             "coms4153w") in Hshape.
    + by vm_compute in Hshape.
    + unfold is_ascii. simpl.
      repeat (apply Forall_cons_2; [by vm_compute|]). apply Forall_nil_2.
Defined.

(** ** Integer fields *)

Section integers.
Context {D : Deps}.

Lemma CourseBase_credits_errors (d : gmap string pyval) (v : pyval) :
  field_errors "credits" (CourseBase.fields (<["credits" := v]> d))
  = errors (at_loc (Key "credits") (int_validate v)).
Proof. unfold CourseBase.fields. by_field. by rewrite required_insert. Qed.

Lemma CourseBase_strength_errors (d : gmap string pyval) (v : pyval) :
  field_errors "strength" (CourseBase.fields (<["strength" := v]> d))
  = errors (at_loc (Key "strength") (int_validate v)).
Proof. unfold CourseBase.fields. by_field. by rewrite required_insert. Qed.

Lemma CourseBase_credits_stored (d : gmap string pyval) (v : pyval) (z : Z)
    (c : CourseBase.t) :
  int_validate v = Ok z →
  CourseBase.fields (<["credits" := v]> d) = Ok c → CourseBase.credits c = z.
Proof.
  intros Hv (_ & _ & _ & Hcredits & _)%CourseBase_fields_Ok.
  rewrite required_insert, Hv in Hcredits. by injection Hcredits.
Qed.

Lemma CourseBase_strength_stored (d : gmap string pyval) (v : pyval) (z : Z)
    (c : CourseBase.t) :
  int_validate v = Ok z →
  CourseBase.fields (<["strength" := v]> d) = Ok c →
  CourseBase.strength c = z.
Proof.
  intros Hv (_ & _ & _ & _ & Hstrength)%CourseBase_fields_Ok.
  rewrite required_insert, Hv in Hstrength. by injection Hstrength.
Qed.
End integers.

(** X4.  [credits] and [strength] are plain [int] fields: every integer,
    negative ones and zero included, is accepted and stored as given, a
    [bool] is stored as [1] or [0], and [None] is refused with a type
    error on the field. *)
Theorem integer_fields_have_no_bounds (D : Deps) (d : gmap string pyval)
    (z : Z) (b : bool) :
  let with_credits := CourseCreate.validate (<["credits" := VInt z]> d) in
  let with_strength := CourseCreate.validate (<["strength" := VInt z]> d) in
  let with_flag := CourseCreate.validate (<["strength" := VBool b]> d) in
  field_errors "credits" with_credits = []
  ∧ fmap_result (CourseBase.credits ∘ data) with_credits
    = fmap_result (λ _, z) with_credits
  ∧ field_errors "strength" with_strength = []
  ∧ fmap_result (CourseBase.strength ∘ data) with_strength
    = fmap_result (λ _, z) with_strength
  ∧ field_errors "strength" with_flag = []
  ∧ fmap_result (CourseBase.strength ∘ data) with_flag
    = fmap_result (λ _, if b then 1 else 0) with_flag
  ∧ field_errors "credits" (CourseCreate.validate (<["credits" := VNone]> d))
    = [LineError [Key "credits"] int_type].
Proof.
  simpl. unfold CourseCreate.validate, model_validate.
  rewrite !field_errors_fmap_result, !CourseBase_credits_errors,
    !CourseBase_strength_errors.
  split_and!; try done.
  - apply fmap_result_const. intros m (c & Hc & ->)%fmap_result_ok_inv.
    simpl. by apply (CourseBase_credits_stored d (VInt z)).
  - apply fmap_result_const. intros m (c & Hc & ->)%fmap_result_ok_inv.
    simpl. by apply (CourseBase_strength_stored d (VInt z)).
  - apply fmap_result_const. intros m (c & Hc & ->)%fmap_result_ok_inv.
    simpl. by apply (CourseBase_strength_stored d (VBool b)).
Qed.

(** ** Where the errors of a course are *)

Section error_locations.
Context {D : Deps}.

Lemma required_leaf_errors {A} (name : string) (T : pyval → result A)
    (d : gmap string pyval) :
  (∀ v, errors (T v) = [] ∨ ∃ t, errors (T v) = [LineError [] t]) →
  errors (required name T d) = []
  ∨ ∃ t, errors (required name T d) = [LineError [Key name] t].
Proof.
  intros Hleaf. unfold required. destruct (d !! name) as [v|].
  - rewrite errors_at_loc. destruct (Hleaf v) as [->|[t ->]]; [by left|].
    right. by exists t.
  - right. by exists missing.
Qed.

Lemma constrained_str_leaf (pattern : string → bool) (v : pyval) :
  errors (constrained_str pattern v) = []
  ∨ ∃ t, errors (constrained_str pattern v) = [LineError [] t].
Proof.
  destruct v; simpl; eauto. destruct (pattern s); simpl; eauto.
Qed.

Lemma str_validate_leaf (v : pyval) :
  errors (str_validate v) = []
  ∨ ∃ t, errors (str_validate v) = [LineError [] t].
Proof. destruct v; simpl; eauto. Qed.

Lemma int_validate_leaf (v : pyval) :
  errors (int_validate v) = []
  ∨ ∃ t, errors (int_validate v) = [LineError [] t].
Proof.
  destruct v; simpl; eauto. destruct (str_as_int s); simpl; eauto.
Qed.

Lemma CourseCreate_field_errors (d : gmap string pyval) :
  field_errors "course_number" (CourseCreate.validate d)
  = errors (required "course_number" CourseNumberType d)
  ∧ field_errors "name" (CourseCreate.validate d)
    = errors (required "name" str_validate d)
  ∧ field_errors "professor_uni" (CourseCreate.validate d)
    = errors (required "professor_uni" UNIType d)
  ∧ field_errors "credits" (CourseCreate.validate d)
    = errors (required "credits" int_validate d)
  ∧ field_errors "strength" (CourseCreate.validate d)
    = errors (required "strength" int_validate d).
Proof.
  unfold CourseCreate.validate, model_validate, CourseBase.fields.
  split_and!; by by_field.
Qed.
End error_locations.

(** X5.  [CourseCreate] reports at most one line error per field: each
    line error lies at a declared field, directly, and is the only error
    of that field; there are at most five. *)
Theorem CourseCreate_reports_one_error_per_field (D : Deps)
    (d : gmap string pyval) :
  (length (errors (CourseCreate.validate d)) ≤ 5)%nat
  ∧ ∀ e, e ∈ errors (CourseCreate.validate d) →
      ∃ f, f ∈ CourseCreate.declared ∧ loc e = [Key f]
           ∧ field_errors f (CourseCreate.validate d) = [e].
Proof.
  destruct (CourseCreate_field_errors d) as (F1 & F2 & F3 & F4 & F5).
  rewrite CourseCreate_errors.
  pose proof (required_leaf_errors "course_number" CourseNumberType d
                (constrained_str_leaf _)) as H1.
  pose proof (required_leaf_errors "name" str_validate d
                str_validate_leaf) as H2.
  pose proof (required_leaf_errors "professor_uni" UNIType d
                (constrained_str_leaf _)) as H3.
  pose proof (required_leaf_errors "credits" int_validate d
                int_validate_leaf) as H4.
  pose proof (required_leaf_errors "strength" int_validate d
                int_validate_leaf) as H5.
  split.
  - rewrite !length_app.
    destruct H1 as [->|[? ->]], H2 as [->|[? ->]], H3 as [->|[? ->]],
      H4 as [->|[? ->]], H5 as [->|[? ->]]; simpl; lia.
  - intros e. rewrite !elem_of_app.
    intros [He|[He|[He|[He|He]]]].
    + exists "course_number". rewrite F1.
      destruct H1 as [H1|[t H1]]; rewrite H1 in He |- *;
        [by apply elem_of_nil in He|].
      apply list_elem_of_singleton in He as ->.
      split_and!; [compute_done|done|done].
    + exists "name". rewrite F2.
      destruct H2 as [H2|[t H2]]; rewrite H2 in He |- *;
        [by apply elem_of_nil in He|].
      apply list_elem_of_singleton in He as ->.
      split_and!; [compute_done|done|done].
    + exists "professor_uni". rewrite F3.
      destruct H3 as [H3|[t H3]]; rewrite H3 in He |- *;
        [by apply elem_of_nil in He|].
      apply list_elem_of_singleton in He as ->.
      split_and!; [compute_done|done|done].
    + exists "credits". rewrite F4.
      destruct H4 as [H4|[t H4]]; rewrite H4 in He |- *;
        [by apply elem_of_nil in He|].
      apply list_elem_of_singleton in He as ->.
      split_and!; [compute_done|done|done].
    + exists "strength". rewrite F5.
      destruct H5 as [H5|[t H5]]; rewrite H5 in He |- *;
        [by apply elem_of_nil in He|].
      apply list_elem_of_singleton in He as ->.
      split_and!; [compute_done|done|done].
Qed.

(** The malformed course and its error on [credits]. *)
Lemma CourseCreate_reports_one_error_per_field_witness :
  ∃ f, f ∈ CourseCreate.declared
       ∧ loc (LineError [Key "credits"] int_parsing) = [Key f]
       ∧ field_errors f (CourseCreate.validate (D:=SpecDeps) malformed_course)
         = [LineError [Key "credits"] int_parsing].
Proof.
  destruct (CourseCreate_reports_one_error_per_field SpecDeps
              malformed_course) as [_ Hlocated].
  apply Hlocated. vm_compute. do 2 apply list_elem_of_further.
  apply list_elem_of_here.
Defined.

(** ** Dumping and validating again *)

Section round_trip.
Context {D : Deps}.

Lemma CourseBase_model_dump_fields_set (b : CourseBase.t) :
  fields_set CourseCreate.declared (CourseBase.model_dump b)
  = list_to_set CourseCreate.declared.
Proof.
  apply fields_set_all.
  unfold CourseCreate.declared, CourseBase.declared.
  repeat (apply Forall_cons_2; [vm_compute; eauto|]).
  apply Forall_nil_2.
Qed.
End round_trip.

(** X6.  Validation is idempotent on courses: the dump of an instance
    of [CourseCreate] validates to that same instance. *)
Theorem CourseCreate_validates_its_dump (D : Deps) (d : gmap string pyval)
    (m : Model CourseCreate.t) :
  CourseCreate.validate d = Ok m →
  CourseCreate.validate (CourseBase.model_dump (data m)) = Ok m.
Proof.
  intros [Hfields Hset]%model_validate_Ok.
  apply model_validate_Ok. split.
  - by apply (CourseBase_fields_model_dump d).
  - rewrite Hset, CourseBase_model_dump_fields_set.
    by apply (CourseCreate_fields_set d (data m)).
Qed.

(** The course of the creation scenario. *)
Lemma CourseCreate_validates_its_dump_witness :
  CourseCreate.validate (D:=SpecDeps)
    (CourseBase.model_dump cloud_computing_record)
  = Ok (MkModel cloud_computing_record (list_to_set CourseCreate.declared)).
Proof.
  apply (CourseCreate_validates_its_dump SpecDeps cloud_computing
           (MkModel cloud_computing_record
              (list_to_set CourseCreate.declared))).
  by vm_compute.
Defined.

(** ** From a creation payload to a read instance *)

Section materialise.
Context {D : Deps}.

Lemma fields_set_server_fields_absent (declared : list string)
    (d : gmap string pyval) :
  server_fields_absent d →
  fields_set (declared ++ ["id"; "created_at"; "updated_at"]) d
  = fields_set declared d.
Proof.
  intros (Hid & Hc & Hu). unfold fields_set. rewrite filter_app.
  assert (filter (λ k, is_Some (d !! k)) ["id"; "created_at"; "updated_at"]
          = []) as ->.
  { rewrite !filter_cons, Hid, Hc, Hu. by rewrite filter_nil. }
  by rewrite app_nil_r.
Qed.

Lemma with_default_factory_insert_ne {A} (k name : string) (v : pyval)
    (T : pyval → result A) (factory : world → A * world)
    (d : gmap string pyval) (w : world) :
  k ≠ name →
  with_default_factory name T factory (<[k := v]> d) w
  = with_default_factory name T factory d w.
Proof. intros Hne. unfold with_default_factory. by rewrite lookup_insert_ne. Qed.

Lemma CourseRead_generated_id (d : gmap string pyval) (w w' : world)
    (r : Model CourseRead.t) :
  d !! "id" = None → CourseRead.validate d w = (Ok r, w') →
  CourseRead.id (data r) = entropy w (drawn w)
  ∧ entropy w' = entropy w ∧ drawn w' = S (drawn w).
Proof.
  intros Hid. rewrite CourseRead_validate_eq. cbv zeta.
  rewrite (with_default_factory_absent "id") by done. simpl.
  unfold with_default_factory.
  destruct (CourseBase.fields d), (d !! "created_at"), (d !! "updated_at");
    simpl;
    repeat match goal with
           | |- context [at_loc ?i ?r] => destruct r; simpl
           end;
    intros [= <- <-]; done.
Qed.

Lemma DepartmentRead_generated_id (d : gmap string pyval) (w w' : world)
    (r : Model DepartmentRead.t) :
  d !! "id" = None → DepartmentRead.validate d w = (Ok r, w') →
  DepartmentRead.id (data r) = entropy w (drawn w)
  ∧ entropy w' = entropy w ∧ drawn w' = S (drawn w).
Proof.
  intros Hid. rewrite DepartmentRead_validate_eq. cbv zeta.
  rewrite (with_default_factory_absent "id") by done. simpl.
  unfold with_default_factory.
  destruct (DepartmentBase.fields d), (d !! "created_at"),
    (d !! "updated_at"); simpl;
    repeat match goal with
           | |- context [at_loc ?i ?r] => destruct r; simpl
           end;
    intros [= <- <-]; done.
Qed.
End materialise.

(** X7.  A read model accepts what the creation model accepts: for a
    payload without [id], [created_at] and [updated_at], [CourseRead]
    gives the errors of [CourseCreate] or its instance, fields and
    [model_fields_set] alike, completed with the next identifier and the
    next two readings of the clock; so does [DepartmentRead] with
    [DepartmentCreate]. *)
Theorem Read_completes_Create (D : Deps) (d : gmap string pyval) (w : world) :
  server_fields_absent d →
  (CourseRead.validate d w).1
  = fmap_result
      (λ m, MkModel
              (CourseRead.mk (data m) (entropy w (drawn w))
                 (clock w (ticks w)) (clock w (S (ticks w))))
              (model_fields_set m))
      (CourseCreate.validate d)
  ∧ (DepartmentRead.validate d w).1
    = fmap_result
        (λ m, MkModel
                (DepartmentRead.mk (data m) (entropy w (drawn w))
                   (clock w (ticks w)) (clock w (S (ticks w))))
                (model_fields_set m))
        (DepartmentCreate.validate d).
Proof.
  intros Habsent.
  rewrite CourseRead_generates, DepartmentRead_generates by done. simpl.
  unfold CourseCreate.validate, DepartmentCreate.validate, model_validate.
  unfold CourseRead_generated, DepartmentRead_generated.
  unfold CourseRead.declared, DepartmentRead.declared.
  rewrite !fields_set_server_fields_absent by done.
  split.
  - by destruct (CourseBase.fields d).
  - by destruct (DepartmentBase.fields d).
Qed.

(** The course of the creation scenario, in the ticking world. *)
Lemma Read_completes_Create_witness :
  (CourseRead.validate (D:=SpecDeps) cloud_computing ticking).1
  = fmap_result
      (λ m, MkModel
              (CourseRead.mk (data m) 1000%N 1736936430000000
                 1736936430000001)
              (model_fields_set m))
      (CourseCreate.validate (D:=SpecDeps) cloud_computing).
Proof.
  destruct (Read_completes_Create SpecDeps cloud_computing ticking)
    as [Hcourse _]; [by vm_compute|].
  exact Hcourse.
Defined.

(** X8.  Building a read instance takes from the generator and the clock
    exactly what the payload leaves out, whether or not the payload is
    valid: one identifier if [id] is absent, one reading for each absent
    timestamp; [CourseRead] and [DepartmentRead] take the same. *)
Theorem Read_takes_what_is_absent (D : Deps) (d : gmap string pyval)
    (w : world) :
  let w' := (CourseRead.validate d w).2 in
  entropy w' = entropy w ∧ clock w' = clock w
  ∧ drawn w' = (drawn w + absent d "id")%nat
  ∧ ticks w'
    = (ticks w + absent d "created_at" + absent d "updated_at")%nat
  ∧ (DepartmentRead.validate d w).2 = w'.
Proof.
  simpl. rewrite CourseRead_validate_eq, DepartmentRead_validate_eq.
  cbv zeta. unfold with_default_factory, absent.
  destruct (d !! "id"), (d !! "created_at"), (d !! "updated_at"); simpl;
    split_and!; try done; lia.
Qed.

(** X9.  The identifiers generated for two instances built one after the
    other are two successive draws: they differ whenever the generator does
    not repeat itself, also between a course and a department. *)
Theorem generated_ids_are_distinct (D : Deps) (d1 d2 : gmap string pyval)
    (w w1 w2 : world) (r1 : Model CourseRead.t)
    (r2 : Model DepartmentRead.t) :
  Inj (=) (=) (entropy w) →
  d1 !! "id" = None → d2 !! "id" = None →
  CourseRead.validate d1 w = (Ok r1, w1) →
  DepartmentRead.validate d2 w1 = (Ok r2, w2) →
  CourseRead.id (data r1) = entropy w (drawn w)
  ∧ DepartmentRead.id (data r2) = entropy w (S (drawn w))
  ∧ CourseRead.id (data r1) ≠ DepartmentRead.id (data r2).
Proof.
  intros Hinj Hd1 Hd2 Hr1 Hr2.
  apply CourseRead_generated_id in Hr1 as (Hid1 & Hentropy & Hdrawn);
    [|done].
  apply DepartmentRead_generated_id in Hr2 as (Hid2 & _ & _); [|done].
  rewrite Hentropy, Hdrawn in Hid2. split_and!; try done.
  rewrite Hid1, Hid2. intros Heq%Hinj. lia.
Qed.

(** The course of the creation scenario, then a department without
    courses. *)
Lemma generated_ids_are_distinct_witness : 1000%N ≠ 1001%N.
Proof.
  assert (Inj (=) (=) (entropy ticking)) as Hinj
    by (intros a b Hab; simpl in Hab; lia).
  destruct (generated_ids_are_distinct SpecDeps cloud_computing
              empty_department ticking (after_generation ticking)
              (after_generation (after_generation ticking))
              (CourseRead_generated ticking cloud_computing
                 cloud_computing_record)
              (DepartmentRead_generated (after_generation ticking)
                 empty_department empty_department_record)
              Hinj eq_refl eq_refl eq_refl eq_refl) as (_ & _ & Hne).
  exact Hne.
Defined.

(** X10.  The read models, too, look only at the keys they declare. *)
Theorem Read_ignores_undeclared_keys (D : Deps) (d : gmap string pyval)
    (k : string) (v : pyval) (w : world) :
  (k ∉ CourseRead.declared →
     CourseRead.validate (<[k := v]> d) w = CourseRead.validate d w)
  ∧ (k ∉ DepartmentRead.declared →
       DepartmentRead.validate (<[k := v]> d) w
       = DepartmentRead.validate d w).
Proof.
  split; intros Hk.
  - rewrite !CourseRead_validate_eq. cbv zeta.
    rewrite fields_set_insert_ne by done.
    unfold CourseRead.declared in Hk.
    apply not_elem_of_app in Hk as [Hbase Hk].
    repeat (apply not_elem_of_cons in Hk as [? Hk]).
    rewrite CourseBase_fields_insert_ne by done.
    by rewrite !with_default_factory_insert_ne by done.
  - rewrite !DepartmentRead_validate_eq. cbv zeta.
    rewrite fields_set_insert_ne by done.
    unfold DepartmentRead.declared in Hk.
    apply not_elem_of_app in Hk as [Hbase Hk].
    repeat (apply not_elem_of_cons in Hk as [? Hk]).
    rewrite DepartmentBase_fields_insert_ne by done.
    by rewrite !with_default_factory_insert_ne by done.
Qed.

(** A [semester] key on the course of the creation scenario. *)
Lemma Read_ignores_undeclared_keys_witness :
  CourseRead.validate (D:=SpecDeps)
    (<["semester" := VStr "Fall"]> cloud_computing) ticking
  = CourseRead.validate (D:=SpecDeps) cloud_computing ticking.
Proof.
  destruct (Read_ignores_undeclared_keys SpecDeps cloud_computing "semester"
              (VStr "Fall") ticking) as [Hcourse _].
  apply Hcourse. compute_done.
Defined.

(** ** Updates and creations *)

Section nullable.
Context {D : Deps}.

Lemma Optional_not_None {A} (T : pyval → result A) (v : pyval) :
  v ≠ VNone → Optional T v = fmap_result Some (T v).
Proof. by destruct v. Qed.

Lemma at_loc_fmap_result {A B} (i : loc_item) (g : A → B) (r : result A) :
  at_loc i (fmap_result g r) = fmap_result g (at_loc i r).
Proof. by destruct r. Qed.

Lemma required_Optional {A} (name : string) (T : pyval → result A)
    (d : gmap string pyval) :
  d !! name ≠ Some VNone →
  required name (Optional T) d = fmap_result Some (required name T d).
Proof.
  unfold required. destruct (d !! name) as [v|]; [|done]. intros Hv.
  rewrite Optional_not_None by congruence. apply at_loc_fmap_result.
Qed.
End nullable.

(** X11.  [DepartmentUpdate] is [DepartmentCreate] with [None] allowed: a
    payload that gives no declared field as [None] has the same errors
    under both, missing keys included, and when it is accepted the update
    holds every field of the created department. *)
Theorem DepartmentUpdate_is_DepartmentCreate_or_null (D : Deps)
    (d : gmap string pyval) :
  no_null DepartmentUpdate.declared d →
  DepartmentUpdate.validate d
  = fmap_result
      (λ m, MkModel (DepartmentUpdate_of (data m)) (model_fields_set m))
      (DepartmentCreate.validate d).
Proof.
  intros Hd.
  unfold DepartmentUpdate.validate, DepartmentCreate.validate, model_validate,
    DepartmentUpdate.fields, DepartmentBase.fields.
  rewrite !required_Optional by (apply Hd; compute_done).
  by destruct (required "department_code" _ d), (required "name" _ d),
    (required "head_of_department" _ d), (required "courses_list" _ d),
    (required "email" _ d).
Qed.

(** A department without courses. *)
Lemma DepartmentUpdate_is_DepartmentCreate_or_null_witness :
  DepartmentUpdate.validate (D:=SpecDeps) empty_department
  = fmap_result
      (λ m, MkModel (DepartmentUpdate_of (data m)) (model_fields_set m))
      (DepartmentCreate.validate (D:=SpecDeps) empty_department).
Proof.
  apply (DepartmentUpdate_is_DepartmentCreate_or_null SpecDeps
           empty_department).
  intros f Hf. unfold DepartmentUpdate.declared in Hf.
  repeat (apply elem_of_cons in Hf as [->|Hf]);
    [..|by apply elem_of_nil in Hf]; by vm_compute.
Defined.

(** X12.  A value other than [None] given for [name], [professor_uni],
    [credits] or [strength] has the same errors in an update as in a
    creation. *)
Theorem CourseUpdate_checks_present_fields (D : Deps) (d : gmap string pyval)
    (f : string) (v : pyval) :
  f ∈ ["name"; "professor_uni"; "credits"; "strength"] → v ≠ VNone →
  field_errors f (CourseUpdate.validate (<[f := v]> d))
  = field_errors f (CourseCreate.validate (<[f := v]> d)).
Proof.
  intros Hf Hv.
  unfold CourseUpdate.validate, CourseCreate.validate, model_validate,
    CourseUpdate.fields, CourseBase.fields.
  repeat (apply elem_of_cons in Hf as [->|Hf]);
    [..|by apply elem_of_nil in Hf];
    by_field;
    rewrite ?with_default_insert, ?required_insert, Optional_not_None by done;
    by rewrite at_loc_fmap_result, errors_fmap_result.
Qed.

(** A number given as the name of a course. *)
Lemma CourseUpdate_checks_present_fields_witness :
  field_errors "name"
    (CourseUpdate.validate (D:=SpecDeps) (<["name" := VInt 5]> new_professor))
  = field_errors "name"
      (CourseCreate.validate (D:=SpecDeps)
         (<["name" := VInt 5]> new_professor)).
Proof.
  apply (CourseUpdate_checks_present_fields SpecDeps new_professor "name"
           (VInt 5)); [compute_done|done].
Defined.

(** X13.  A value supplied for [id] that is not an identifier is an
    error: the read models refuse the payload and do not draw an
    identifier in its place. *)
Theorem supplied_id_must_be_valid (D : Deps) (d : gmap string pyval)
    (v : pyval) (w : world) :
  is_ok (UUID_validate v) = false →
  let course := CourseRead.validate (<["id" := v]> d) w in
  let department := DepartmentRead.validate (<["id" := v]> d) w in
  is_ok course.1 = false ∧ drawn course.2 = drawn w
  ∧ is_ok department.1 = false ∧ drawn department.2 = drawn w.
Proof.
  intros Hv. simpl.
  rewrite CourseRead_validate_eq, DepartmentRead_validate_eq. cbv zeta.
  rewrite !with_default_factory_insert. simpl.
  rewrite !is_ok_fmap_result, !is_ok_ap, is_ok_at_loc, Hv.
  rewrite !andb_false_r. simpl.
  unfold with_default_factory.
  destruct (<["id" := v]> d !! "created_at"),
    (<["id" := v]> d !! "updated_at"); done.
Qed.

(** An [id] given as [None]. *)
Lemma supplied_id_must_be_valid_witness :
  is_ok (CourseRead.validate (D:=SpecDeps)
           (<["id" := VNone]> cloud_computing) ticking).1 = false.
Proof.
  destruct (supplied_id_must_be_valid SpecDeps cloud_computing VNone ticking
              eq_refl) as (Hcourse & _).
  exact Hcourse.
Defined.

(** ** Lists of courses *)

Section lists.
Context {D : Deps}.

Lemma sequence_at_loc_Forall2 {A} (T : pyval → result A)
    (g : nat → loc_item) (l : list pyval) (cs : list A) :
  sequence (imap (λ i x, at_loc (g i) (T x)) l) = Ok cs
  ↔ Forall2 (λ v c, T v = Ok c) l cs.
Proof.
  revert g cs. induction l as [|v l IH]; intros g cs.
  - simpl. split.
    + intros [= <-]. constructor.
    + by intros ->%Forall2_nil_inv_l.
  - rewrite imap_cons.
    change ((λ i x, at_loc (g i) (T x)) ∘ S)
      with (λ i x, at_loc ((g ∘ S) i) (T x)).
    change (sequence (?r :: ?rs)) with (Ok cons <&> r <&> sequence rs).
    specialize (IH (g ∘ S)). split.
    + destruct (T v) as [c|] eqn:Hv; simpl.
      * destruct (sequence _) as [cs'|] eqn:Hcs; simpl; [|done].
        intros [= <-]. constructor; [done|]. by apply IH.
      * by destruct (sequence _).
    + intros (c & cs' & Hv & Hcs & ->)%Forall2_cons_inv_l.
      apply IH in Hcs. by rewrite Hv, Hcs.
Qed.

(** [List[T]] accepts a list exactly when [T] accepts each element, and
    then returns the results in the order of the elements. *)
Lemma List_of_Forall2 {A} (T : pyval → result A) (l : list pyval)
    (cs : list A) :
  List_of T (VList l) = Ok cs ↔ Forall2 (λ v c, T v = Ok c) l cs.
Proof. apply (sequence_at_loc_Forall2 T Idx). Qed.

Lemma DepartmentBase_courses_list_stored (d : gmap string pyval)
    (l : list pyval) (cs : list CourseBase.t) (b : DepartmentBase.t) :
  Forall2 (λ v c, nested CourseBase.fields v = Ok c) l cs →
  DepartmentBase.fields (<["courses_list" := VList l]> d) = Ok b →
  DepartmentBase.courses_list b = cs.
Proof.
  intros Hl%List_of_Forall2 (_ & _ & _ & Hcourses & _)%DepartmentBase_fields_Ok.
  rewrite required_insert, Hl in Hcourses. by injection Hcourses.
Qed.

Lemma errors_imap_under (k : loc_item) {A} (T : pyval → result A)
    (g : nat → loc_item) (l : list pyval) :
  under k <$> mjoin (errors <$> imap (λ i x, at_loc (g i) (T x)) l)
  = mjoin (imap (λ i x, (λ e, under k (under (g i) e)) <$> errors (T x)) l).
Proof.
  revert g. induction l as [|v l IH]; intros g; [done|].
  rewrite !imap_cons. simpl. rewrite fmap_app, errors_at_loc.
  rewrite <- list_fmap_compose. f_equal. apply (IH (g ∘ S)).
Qed.

Lemma fields_set_insert_insert (declared : list string) (k : string)
    (a b : pyval) (d : gmap string pyval) :
  fields_set declared (<[k := a]> d) = fields_set declared (<[k := b]> d).
Proof.
  unfold fields_set. f_equal. apply list_filter_iff. intros f.
  destruct (decide (k = f)) as [->|Hne].
  - rewrite !lookup_insert_eq. split; eauto.
  - by rewrite !lookup_insert_ne.
Qed.
End lists.

(** X14.  A [courses_list] whose elements are all valid courses is
    accepted whatever its length and whatever it repeats, the empty list
    included, and the department holds the courses in the order of the
    list. *)
Theorem courses_list_is_kept_as_given (D : Deps) (d : gmap string pyval)
    (l : list pyval) (cs : list CourseBase.t) :
  Forall2 (λ v c, nested CourseBase.fields v = Ok c) l cs →
  let department :=
    DepartmentCreate.validate (<["courses_list" := VList l]> d) in
  field_errors "courses_list" department = []
  ∧ fmap_result (DepartmentBase.courses_list ∘ data) department
    = fmap_result (λ _, cs) department.
Proof.
  intros Hl. simpl. split.
  - rewrite DepartmentCreate_courses_list_errors, required_insert.
    apply List_of_Forall2 in Hl. by rewrite Hl.
  - unfold DepartmentCreate.validate, model_validate.
    apply fmap_result_const. intros m (b & Hb & ->)%fmap_result_ok_inv.
    simpl. by apply (DepartmentBase_courses_list_stored d l).
Qed.

(** The same course twice. *)
Lemma courses_list_is_kept_as_given_witness :
  fmap_result (DepartmentBase.courses_list ∘ data)
    (DepartmentCreate.validate (D:=SpecDeps) department_with_duplicates)
  = Ok [marketing_analytics_record; marketing_analytics_record].
Proof.
  destruct (courses_list_is_kept_as_given SpecDeps department_with_duplicates
              [VDict marketing_analytics; VDict marketing_analytics]
              [marketing_analytics_record; marketing_analytics_record])
    as [_ Hstored].
  - repeat constructor; by vm_compute.
  - by vm_compute.
Defined.

(** X15.  A [courses_list] that is not a list gives one [list_type] error
    on the field, and an element that is not a [dict] gives a [model_type]
    error at the index of the element. *)
Theorem courses_list_takes_a_list_of_dicts (D : Deps) (d : gmap string pyval)
    (v : pyval) (l : list pyval) (i : nat) :
  ((∀ l', v ≠ VList l') →
     field_errors "courses_list"
       (DepartmentCreate.validate (<["courses_list" := v]> d))
     = [LineError [Key "courses_list"] list_type])
  ∧ (l !! i = Some v → (∀ e, v ≠ VDict e) →
       LineError [Key "courses_list"; Idx i] model_type
         ∈ errors (DepartmentCreate.validate
                     (<["courses_list" := VList l]> d))).
Proof.
  split.
  - intros Hv. rewrite DepartmentCreate_courses_list_errors, required_insert.
    destruct v; try done. by destruct (Hv l0).
  - intros Hi Hv.
    rewrite <- elem_of_field_errors, DepartmentCreate_courses_list_errors.
    rewrite required_insert, errors_at_loc, elem_of_under.
    split; [done|]. rewrite (elem_of_errors_List_of _ l i v) by done.
    destruct v; try apply list_elem_of_here. by destruct (Hv d0).
Qed.

(** A course given by its number alone. *)
Lemma courses_list_takes_a_list_of_dicts_witness :
  field_errors "courses_list"
    (DepartmentCreate.validate (D:=SpecDeps)
       (<["courses_list" := VStr "IEOR4121W"]> empty_department))
  = [LineError [Key "courses_list"] list_type]
  ∧ LineError [Key "courses_list"; Idx 0] model_type
      ∈ errors (DepartmentCreate.validate (D:=SpecDeps)
                  (<["courses_list" := VList [VStr "IEOR4121W"]]>
                     empty_department)).
Proof.
  destruct (courses_list_takes_a_list_of_dicts SpecDeps empty_department
              (VStr "IEOR4121W") [VStr "IEOR4121W"] 0) as [Hlist Helement].
  split.
  - by apply Hlist.
  - by apply Helement.
Defined.

(** X16.  The errors of a department are those of its five fields in
    declaration order, and those of [courses_list] are the errors of its
    elements in the order of the list, each below [courses_list] and the
    index of its element. *)
Theorem DepartmentCreate_errors_in_order (D : Deps) (d : gmap string pyval)
    (l : list pyval) :
  d !! "courses_list" = Some (VList l) →
  errors (DepartmentCreate.validate d)
  = errors (required "department_code" str_validate d)
    ++ errors (required "name" str_validate d)
    ++ errors (required "head_of_department" UNIType d)
    ++ mjoin (imap (λ i v,
                      (λ e, under (Key "courses_list") (under (Idx i) e))
                        <$> errors (nested CourseBase.fields v)) l)
    ++ errors (required "email" EmailStr d).
Proof.
  intros Hd.
  unfold DepartmentCreate.validate, model_validate, DepartmentBase.fields.
  rewrite errors_fmap_result, !errors_ap. simpl.
  rewrite <- !app_assoc. do 3 f_equal.
  unfold required at 1. rewrite Hd, errors_at_loc. simpl.
  by rewrite errors_sequence, errors_imap_under.
Qed.

(** The department whose second course is malformed. *)
Lemma DepartmentCreate_errors_in_order_witness :
  errors (DepartmentCreate.validate (D:=SpecDeps) department_with_bad_course)
  = [LineError [Key "courses_list"; Idx 1; Key "course_number"]
       string_pattern_mismatch].
Proof.
  rewrite (DepartmentCreate_errors_in_order SpecDeps
             department_with_bad_course
             [VDict marketing_analytics;
              VDict (<["course_number" := VStr "ieor4123"]>
                       marketing_analytics)] eq_refl).
  by vm_compute.
Defined.

(** X17.  A key that [CourseBase] does not declare is ignored inside an
    element of [courses_list] as well. *)
Theorem course_elements_ignore_undeclared_keys (D : Deps)
    (d : gmap string pyval) (l1 l2 : list pyval) (e : gmap string pyval)
    (k : string) (v : pyval) :
  k ∉ CourseBase.declared →
  DepartmentCreate.validate
    (<["courses_list" := VList (l1 ++ VDict (<[k := v]> e) :: l2)]> d)
  = DepartmentCreate.validate
      (<["courses_list" := VList (l1 ++ VDict e :: l2)]> d).
Proof.
  intros Hk. unfold DepartmentCreate.validate, model_validate.
  rewrite (fields_set_insert_insert _ _ _ (VList (l1 ++ VDict e :: l2))).
  f_equal. unfold DepartmentBase.fields.
  rewrite !required_insert, !required_insert_ne by done.
  do 2 f_equal. simpl. rewrite !imap_app, !imap_cons. simpl.
  by rewrite CourseBase_fields_insert_ne.
Qed.

(** An [id] inside the only course of a department. *)
Lemma course_elements_ignore_undeclared_keys_witness :
  DepartmentCreate.validate (D:=SpecDeps)
    (<["courses_list" := VList [VDict (<["id" := VInt 3]> marketing_analytics)]]>
       empty_department)
  = DepartmentCreate.validate (D:=SpecDeps)
      (<["courses_list" := VList [VDict marketing_analytics]]>
         empty_department).
Proof.
  apply (course_elements_ignore_undeclared_keys SpecDeps empty_department
           [] [] marketing_analytics "id" (VInt 3)).
  compute_done.
Defined.

(** ** Dumping a department and validating it again *)

Section department_round_trip.
Context {D : Deps}.

Lemma DepartmentBase_model_dump_lookup (b : DepartmentBase.t) :
  DepartmentBase.model_dump b !! "department_code"
  = Some (VStr (DepartmentBase.department_code b))
  ∧ DepartmentBase.model_dump b !! "name"
    = Some (VStr (DepartmentBase.name b))
  ∧ DepartmentBase.model_dump b !! "head_of_department"
    = Some (VStr (DepartmentBase.head_of_department b))
  ∧ DepartmentBase.model_dump b !! "courses_list"
    = Some (VList ((λ x, VDict (CourseBase.model_dump x))
                     <$> DepartmentBase.courses_list b))
  ∧ DepartmentBase.model_dump b !! "email"
    = Some (VStr (DepartmentBase.email b)).
Proof. by vm_compute. Qed.

Lemma nested_model_dump (v : pyval) (c : CourseBase.t) :
  nested CourseBase.fields v = Ok c →
  nested CourseBase.fields (VDict (CourseBase.model_dump c)) = Ok c.
Proof.
  destruct v; try done. simpl. apply CourseBase_fields_model_dump.
Qed.

Lemma courses_model_dump (l : list pyval) (cs : list CourseBase.t) :
  List_of (nested CourseBase.fields) (VList l) = Ok cs →
  List_of (nested CourseBase.fields)
    (VList ((λ x, VDict (CourseBase.model_dump x)) <$> cs)) = Ok cs.
Proof.
  rewrite !List_of_Forall2. intros Hl.
  apply Forall2_fmap_l, Forall_Forall2_diag.
  induction Hl as [|v c l cs Hv _ IH]; constructor; [|done].
  by apply (nested_model_dump v).
Qed.

Lemma EmailStr_Ok (v : pyval) (e : string) :
  EmailStr v = Ok e → ∃ s, v = VStr s ∧ EmailStr_parse s = Some e.
Proof.
  destruct v; try done. simpl.
  destruct (EmailStr_parse s) as [e'|] eqn:Hs; [|done].
  intros [= <-]. eauto.
Qed.

Lemma DepartmentBase_fields_model_dump (d : gmap string pyval)
    (b : DepartmentBase.t) :
  EmailStr_idempotent D →
  DepartmentBase.fields d = Ok b →
  DepartmentBase.fields (DepartmentBase.model_dump b) = Ok b.
Proof.
  intros Hidem (_ & _ & Hhead & Hcourses & Hemail)%DepartmentBase_fields_Ok.
  apply required_Ok_lookup in Hhead as (? & _ & [_ Hhead]%constrained_str_Ok).
  apply required_Ok_lookup in Hcourses as ([] & _ & Hcourses); try done.
  apply courses_model_dump in Hcourses.
  apply required_Ok_lookup in Hemail as (? & _ & (s & _ & Hs)%EmailStr_Ok).
  apply Hidem in Hs.
  destruct (DepartmentBase_model_dump_lookup b) as (H1 & H2 & H3 & H4 & H5).
  apply DepartmentBase_fields_Ok. unfold required.
  rewrite H1, H2, H3, H4, H5, Hcourses.
  unfold UNIType, constrained_str, EmailStr. by rewrite Hhead, Hs.
Qed.

Lemma DepartmentCreate_fields_set (d : gmap string pyval)
    (b : DepartmentBase.t) :
  DepartmentBase.fields d = Ok b →
  fields_set DepartmentCreate.declared d
  = list_to_set DepartmentCreate.declared.
Proof.
  intros (H1 & H2 & H3 & H4 & H5)%DepartmentBase_fields_Ok.
  apply required_Ok_lookup in H1 as (? & ? & _).
  apply required_Ok_lookup in H2 as (? & ? & _).
  apply required_Ok_lookup in H3 as (? & ? & _).
  apply required_Ok_lookup in H4 as (? & ? & _).
  apply required_Ok_lookup in H5 as (? & ? & _).
  apply fields_set_all.
  repeat (apply Forall_cons_2; [by eauto|]). apply Forall_nil_2.
Qed.

Lemma DepartmentBase_model_dump_fields_set (b : DepartmentBase.t) :
  fields_set DepartmentCreate.declared (DepartmentBase.model_dump b)
  = list_to_set DepartmentCreate.declared.
Proof.
  destruct (DepartmentBase_model_dump_lookup b) as (H1 & H2 & H3 & H4 & H5).
  apply fields_set_all.
  repeat (apply Forall_cons_2; [by eauto|]). apply Forall_nil_2.
Qed.

Lemma DepartmentRead_model_dump_fields (r : DepartmentRead.t) :
  DepartmentBase.fields (DepartmentRead.model_dump r)
  = DepartmentBase.fields (DepartmentBase.model_dump (DepartmentRead.base r)).
Proof.
  unfold DepartmentRead.model_dump.
  by rewrite !DepartmentBase_fields_insert_ne by compute_done.
Qed.

Lemma DepartmentRead_model_dump_fields_set (r : DepartmentRead.t) :
  fields_set DepartmentRead.declared (DepartmentRead.model_dump r)
  = list_to_set DepartmentRead.declared.
Proof.
  destruct (DepartmentBase_model_dump_lookup (DepartmentRead.base r))
    as (H1 & H2 & H3 & H4 & H5).
  destruct (DepartmentRead_model_dump_lookup r) as (H6 & H7 & H8).
  apply fields_set_all.
  unfold DepartmentRead.declared, DepartmentBase.declared. simpl.
  unfold DepartmentRead.model_dump in *.
  repeat (apply Forall_cons_2;
          [repeat (rewrite lookup_insert_ne by done); by eauto|]).
  apply Forall_nil_2.
Qed.

Lemma DepartmentRead_validate_Ok (d : gmap string pyval) (w w' : world)
    (r : Model DepartmentRead.t) :
  DepartmentRead.validate d w = (Ok r, w') →
  DepartmentBase.fields d = Ok (DepartmentRead.base (data r)).
Proof.
  rewrite DepartmentRead_validate_eq. cbv zeta.
  destruct (with_default_factory "id" _ _ d w) as [rid w1]; simpl.
  destruct (with_default_factory "created_at" _ _ d w1) as [rc w2]; simpl.
  destruct (with_default_factory "updated_at" _ _ d w2) as [ru w3]; simpl.
  destruct (DepartmentBase.fields d), rid, rc, ru; simpl; by intros [= <- _].
Qed.
End department_round_trip.

(** X18.  Where [EmailStr] leaves a normalised address as it is,
    validation is idempotent on departments: the dump of an instance of
    [DepartmentCreate] validates to that same instance, and the dump of an
    instance of [DepartmentRead] validates, in any world and without
    drawing an identifier or reading the clock, to an instance with the
    same values. *)
Theorem Department_validates_its_dump (D : Deps) (d : gmap string pyval) :
  EmailStr_idempotent D →
  (∀ m, DepartmentCreate.validate d = Ok m →
     DepartmentCreate.validate (DepartmentBase.model_dump (data m)) = Ok m)
  ∧ (∀ r w w' w2, DepartmentRead.validate d w = (Ok r, w') →
       DepartmentRead.validate (DepartmentRead.model_dump (data r)) w2
       = (Ok (MkModel (data r) (list_to_set DepartmentRead.declared)), w2)).
Proof.
  intros Hidem. split.
  - intros m [Hfields Hset]%model_validate_Ok.
    apply model_validate_Ok. split.
    + by apply (DepartmentBase_fields_model_dump d).
    + rewrite Hset, DepartmentBase_model_dump_fields_set.
      by apply (DepartmentCreate_fields_set d (data m)).
  - intros r w w' w2 Hb%DepartmentRead_validate_Ok.
    apply DepartmentBase_fields_model_dump in Hb; [|done].
    rewrite DepartmentRead_validate_model_dump,
      DepartmentRead_model_dump_fields, Hb.
    simpl. rewrite DepartmentRead_model_dump_fields_set.
    by destruct (data r).
Qed.

(** A department without courses, under the grammar of the spec. *)
Lemma Department_validates_its_dump_witness :
  DepartmentCreate.validate (D:=SpecDeps)
    (DepartmentBase.model_dump empty_department_record)
  = Ok (MkModel empty_department_record
          (list_to_set DepartmentCreate.declared)).
Proof.
  assert (EmailStr_idempotent SpecDeps) as Hidem.
  { intros s e Hs. simpl in *.
    pose proof (proj2 (EmailStr_parse_spec_shape s) e Hs) as ->. exact Hs. }
  destruct (Department_validates_its_dump SpecDeps empty_department Hidem)
    as [Hcreate _].
  apply (Hcreate (MkModel empty_department_record
                    (list_to_set DepartmentCreate.declared))).
  by vm_compute.
Defined.

(** ** The timestamps of a read record *)

Section read_again.
Context {D : Deps}.

(** What building a department record again from its dump keeps. *)
Lemma DepartmentRead_validates_again (d : gmap string pyval) (w w' : world)
    (r : Model DepartmentRead.t) (w2 : world) :
  EmailStr_idempotent D →
  DepartmentRead.validate d w = (Ok r, w') →
  DepartmentRead.validate (DepartmentRead.model_dump (data r)) w2
  = (Ok (MkModel (data r) (list_to_set DepartmentRead.declared)), w2).
Proof.
  intros Hidem Hb%DepartmentRead_validate_Ok.
  apply DepartmentBase_fields_model_dump in Hb; [|done].
  rewrite DepartmentRead_validate_model_dump,
    DepartmentRead_model_dump_fields, Hb.
  simpl. rewrite DepartmentRead_model_dump_fields_set.
  by destruct (data r).
Qed.
End read_again.

(** C9.  In a read record whose timestamps are generated, [created_at] is
    the first reading of the clock and [updated_at] the next one, so
    [created_at <= updated_at] holds exactly when the clock did not go
    backwards between the two readings.  Building the record again from
    its dump, in any later world, reads no clock and keeps [created_at]: a
    course record comes back unchanged, and so does a department record
    where [EmailStr] leaves a normalised address as it is. *)
Theorem C9_timestamps_are_successive_readings (D : Deps)
    (d : gmap string pyval) (w : world) :
  d !! "created_at" = None → d !! "updated_at" = None →
  (∀ r w', CourseRead.validate d w = (Ok r, w') →
     CourseRead.created_at (data r) = clock w (ticks w)
     ∧ CourseRead.updated_at (data r) = clock w (S (ticks w))
     ∧ ((CourseRead.created_at (data r) ≤ CourseRead.updated_at (data r))%Z
        ↔ (clock w (ticks w) ≤ clock w (S (ticks w)))%Z)
     ∧ ∀ w2, CourseRead.validate (CourseRead.model_dump (data r)) w2
             = (Ok (MkModel (data r) (list_to_set CourseRead.declared)), w2))
  ∧ (∀ r w', DepartmentRead.validate d w = (Ok r, w') →
       DepartmentRead.created_at (data r) = clock w (ticks w)
       ∧ DepartmentRead.updated_at (data r) = clock w (S (ticks w))
       ∧ ((DepartmentRead.created_at (data r)
           ≤ DepartmentRead.updated_at (data r))%Z
          ↔ (clock w (ticks w) ≤ clock w (S (ticks w)))%Z)
       ∧ ∀ w2,
           let again :=
             DepartmentRead.validate (DepartmentRead.model_dump (data r)) w2 in
           again.2 = w2
           ∧ fmap_result (DepartmentRead.created_at ∘ data) again.1
             = fmap_result (λ _, DepartmentRead.created_at (data r)) again.1
           ∧ (EmailStr_idempotent D →
              again
              = (Ok (MkModel (data r) (list_to_set DepartmentRead.declared)),
                 w2))).
Proof.
  intros Hc Hu. split.
  - intros r w' Hr.
    destruct (CourseRead_generated_timestamps d w w' r Hc Hu Hr) as [-> ->].
    split_and!; try done.
    intros w2. by apply (CourseRead_validates_again d w w').
  - intros r w' Hr.
    destruct (DepartmentRead_generated_timestamps d w w' r Hc Hu Hr)
      as [Hcreated Hupdated].
    split_and!; try done.
    + by rewrite Hcreated, Hupdated.
    + intros w2. cbv zeta.
      destruct (DepartmentRead_keeps_dumped (data r) w2) as [Hworld Hkept].
      split_and!; try done.
      intros Hidem. by apply (DepartmentRead_validates_again d w w').
Qed.

(** The course of the creation scenario and a department without courses,
    both generated in the ticking world; the course is built again from
    its dump after the clock has moved on. *)
Lemma C9_timestamps_are_successive_readings_witness :
  (1736936430000000 ≤ 1736936430000001)%Z
  ∧ CourseRead.validate (D:=SpecDeps)
      (CourseRead.model_dump
         (CourseRead.mk cloud_computing_record 1000%N 1736936430000000
            1736936430000001))
      (after_generation ticking)
    = (Ok (MkModel
             (CourseRead.mk cloud_computing_record 1000%N 1736936430000000
                1736936430000001)
             (list_to_set CourseRead.declared)),
       after_generation ticking)
  ∧ (DepartmentRead.created_at
       (DepartmentRead.mk empty_department_record 1000%N 1736936430000000
          1736936430000001)
     ≤ DepartmentRead.updated_at
         (DepartmentRead.mk empty_department_record 1000%N 1736936430000000
            1736936430000001))%Z
  ∧ DepartmentRead.validate (D:=SpecDeps)
      (DepartmentRead.model_dump
         (DepartmentRead.mk empty_department_record 1000%N 1736936430000000
            1736936430000001))
      (after_generation ticking)
    = (Ok (MkModel
             (DepartmentRead.mk empty_department_record 1000%N
                1736936430000000 1736936430000001)
             (list_to_set DepartmentRead.declared)),
       after_generation ticking).
Proof.
  assert (EmailStr_idempotent SpecDeps) as Hidem.
  { intros s e Hs. simpl in *.
    pose proof (proj2 (EmailStr_parse_spec_shape s) e Hs) as ->. exact Hs. }
  destruct (C9_timestamps_are_successive_readings SpecDeps cloud_computing
              ticking eq_refl eq_refl) as [Hcourse _].
  destruct (C9_timestamps_are_successive_readings SpecDeps empty_department
              ticking eq_refl eq_refl) as [_ Hdepartment].
  destruct (Hcourse
              (MkModel
                 (CourseRead.mk cloud_computing_record 1000%N
                    1736936430000000 1736936430000001)
                 (list_to_set CourseBase.declared))
              (after_generation ticking) eq_refl)
    as (_ & _ & Horder & Hagain).
  destruct (Hdepartment
              (MkModel
                 (DepartmentRead.mk empty_department_record 1000%N
                    1736936430000000 1736936430000001)
                 (list_to_set DepartmentBase.declared))
              (after_generation ticking) eq_refl)
    as (_ & _ & Horder' & Hagain').
  split_and!.
  - apply Horder. simpl. lia.
  - apply Hagain.
  - apply Horder'. simpl. lia.
  - by apply (Hagain' (after_generation ticking)).
Defined.

(** With a clock that is set back between the two readings, the course of
    the creation scenario gets a [created_at] later than its
    [updated_at]. *)
Lemma C9_clock_set_back_inverts_timestamps :
  fmap_result
    (λ r, (CourseRead.created_at (data r), CourseRead.updated_at (data r),
           (CourseRead.created_at (data r)
            <=? CourseRead.updated_at (data r))%Z))
    (CourseRead.validate (D:=SpecDeps) cloud_computing set_back).1
  = Ok (1736936430000000, 1736936429999999, false)%Z.
Proof. reflexivity. Qed.
